(** * The AT command parser of the radio firmware (Firmware/radio/at.c)

    A shallow embedding of [at.c]: the line editor [at_input], the "+++"
    escape detector [at_plus_detector] with its 100Hz companion [at_timer],
    the numeric lexer [at_parse_number] and the dispatcher [at_command]
    with its handlers.

    The file-level variables of [at.c] become the fields of one record.
    Functions that touch the command buffer run in a small state-and-error
    monad: a load or a store outside the [AT_CMD_MAXLEN + 1] cells of
    [at_cmd] is undefined in C and is an explicit [OutOfBounds] outcome here;
    the two [for (;;);] loops of the source are the [Halt] outcome. *)

From stdpp Require Import base decidable option list numbers.
From Stdlib Require Import ZArith Lia.

#[local] Open Scope Z_scope.

(** ** Machine integers *)

Definition u8 (z : Z) : Z := z mod 256.
Definition u16 (z : Z) : Z := z mod 65536.
Definition u32 (z : Z) : Z := z mod 4294967296.

(** ** Character constants of the source *)

Abbreviation c_NUL := 0 (only parsing).
Abbreviation c_BS := 8 (only parsing).      (* '\b' *)
Abbreviation c_NL := 10 (only parsing).     (* '\n' *)
Abbreviation c_CR := 13 (only parsing).     (* '\r' *)
Abbreviation c_SP := 32 (only parsing).     (* ' ' *)
Abbreviation c_amp := 38 (only parsing).    (* '&' *)
Abbreviation c_plus := 43 (only parsing).   (* '+' *)
Abbreviation c_comma := 44 (only parsing).  (* ',' *)
Abbreviation c_0 := 48 (only parsing).
Abbreviation c_1 := 49 (only parsing).
Abbreviation c_2 := 50 (only parsing).
Abbreviation c_3 := 51 (only parsing).
Abbreviation c_4 := 52 (only parsing).
Abbreviation c_5 := 53 (only parsing).
Abbreviation c_6 := 54 (only parsing).
Abbreviation c_7 := 55 (only parsing).
Abbreviation c_8 := 56 (only parsing).
Abbreviation c_9 := 57 (only parsing).
Abbreviation c_eq := 61 (only parsing).     (* '=' *)
Abbreviation c_qm := 63 (only parsing).     (* '?' *)
Abbreviation c_A := 65 (only parsing).
Abbreviation c_C := 67 (only parsing).
Abbreviation c_D := 68 (only parsing).
Abbreviation c_E := 69 (only parsing).
Abbreviation c_F := 70 (only parsing).
Abbreviation c_I := 73 (only parsing).
Abbreviation c_L := 76 (only parsing).
Abbreviation c_M := 77 (only parsing).
Abbreviation c_O := 79 (only parsing).
Abbreviation c_P := 80 (only parsing).
Abbreviation c_R := 82 (only parsing).
Abbreviation c_S := 83 (only parsing).
Abbreviation c_T := 84 (only parsing).
Abbreviation c_U := 85 (only parsing).
Abbreviation c_W := 87 (only parsing).
Abbreviation c_Z := 90 (only parsing).
Abbreviation c_DEL := 127 (only parsing).   (* '\x7f' *)

(** The <ctype.h> classifiers on an unsigned char, "C" locale. *)
Definition isdigit (c : Z) : bool := (c_0 <=? c) && (c <=? c_9).
Definition isprint (c : Z) : bool := (32 <=? c) && (c <=? 126).
Definition toupper (c : Z) : Z :=
  if (97 <=? c) && (c <=? 122) then c - 32 else c.

(** ** What the firmware does to the outside *)

(** Calls into the collaborators declared in radio.h and tdm.h, and the
    writes to special function registers. *)
Inductive call : Type :=
  | param_print_call (id : Z)
  | param_get_call (id : Z)
  | param_set_call (id val : Z)
  | param_default_call
  | param_save_call
  | tdm_remote_at_call (destination : Z) (cmd : list Z)
  | tdm_report_timing_call
  | tdm_show_rssi_call
  | tdm_state_sync_call
  | pins_user_get_io_call (pin : Z)
  | pins_user_set_io_call (pin : Z) (in_out : bool)
  | pins_user_get_value_call (pin : Z)
  | pins_user_get_adc_call (pin : Z)
  | pins_user_set_value_call (pin val : Z)
  | calibration_get_call (creg : Z)
  | calibration_set_call (creg val : Z)
  | calibration_lock_call
  | radio_set_diversity_call (on : bool)
  | sfr_PCA0MD_watchdog (enable : bool)
  | sfr_PCA0CPH0_write (val : Z)
  | sfr_RSTSRC_swreset.

(** Everything observable: bytes and formatted lines written to the host,
    and the calls above, in program order. *)
Inductive event : Type :=
  | Putchar (c : Z)
  | ReplyOK (node : Z)                (* "[%u] OK\n" *)
  | ReplyERROR (node : Z)             (* "[%u] ERROR\n" *)
  | PrintBanner (node : Z)            (* "[%u] %s\n", g_banner_string *)
  | PrintVersion (node : Z)           (* "[%u] %s\n", g_version_string *)
  | PrintU (node v : Z)               (* "[%u] %u\n" *)
  | PrintLU (node v : Z)              (* "[%u] %lu\n" *)
  | PrintSyncBase (node : Z)          (* "[%u] Sync: Base\n" *)
  | PrintSync (node v : Z)            (* "[%u] Sync: %u\n" *)
  | PrintPin (node pin : Z)           (* "[%u] Pin:%d " *)
  | PrintOutput                       (* "Output " *)
  | PrintInput                        (* "Input  " *)
  | PrintVal (v : Z)                  (* "Val: %d\n" *)
  | PrintAdc (node v : Z)             (* "[%u] val:%u\n" *)
  | PrintCal (v : Z)                  (* "%lu\n" *)
  | Called (c : call).

(** ** The platform

    [at.c] includes radio.h and tdm.h, which are not part of the sources at
    hand.  The macros, globals and functions it takes from them are the
    fields of this class; nothing is assumed about their values here. *)
Class Platform : Type := {
  world : Type;                       (* state of the collaborators *)
  AT_CMD_MAXLEN : Z;
  PARAM_MAX : Z;
  PIN_MAX : Z;
  PIN_INPUT : bool;
  PIN_OUTPUT : bool;
  AT_TEST_RSSI : Z;
  AT_TEST_TDM : Z;
  BOARD_ID : Z;
  BOARD_rfd900a : bool;               (* #ifdef BOARD_rfd900a *)
  WATCH_DOG_ENABLE : bool;            (* _BOARD_RFD900A && WATCH_DOG_ENABLE *)
  nodeId : world -> Z;
  g_board_frequency : world -> Z;
  g_board_bl_version : world -> Z;
  (* the answer of a collaborator to a call, and what the call leaves *)
  collab : call -> world -> Z * world
}.

(** States of the +++ detector. *)
Abbreviation ATP_WAIT_FOR_IDLE := 0 (only parsing).
Abbreviation ATP_WAIT_FOR_PLUS1 := 1 (only parsing).
Abbreviation ATP_WAIT_FOR_PLUS2 := 2 (only parsing).
Abbreviation ATP_WAIT_FOR_PLUS3 := 3 (only parsing).
Abbreviation ATP_WAIT_FOR_ENABLE := 4 (only parsing).
(** 100 ticks of the 100Hz timer. *)
Abbreviation ATP_COUNT_1S := 100 (only parsing).

Section Firmware.
Context `{PF : Platform}.

(** ** The variables of at.c *)
Record at_state : Type := mkState {
  at_cmd : list Z;          (* char at_cmd[AT_CMD_MAXLEN + 1] *)
  at_cmd_len : Z;           (* uint8_t *)
  idx : Z;                  (* uint8_t *)
  at_mode_active : bool;
  at_cmd_ready : bool;
  at_testmode : Z;          (* uint8_t *)
  at_plus_state : Z;        (* uint8_t *)
  at_plus_counter : Z;      (* uint8_t *)
  out : list event;         (* what has been written and called so far *)
  env : world
}.

Definition set_at_cmd (v : list Z) (s : at_state) : at_state :=
  mkState v (at_cmd_len s) (idx s) (at_mode_active s) (at_cmd_ready s)
    (at_testmode s) (at_plus_state s) (at_plus_counter s) (out s) (env s).
Definition set_at_cmd_len (v : Z) (s : at_state) : at_state :=
  mkState (at_cmd s) v (idx s) (at_mode_active s) (at_cmd_ready s)
    (at_testmode s) (at_plus_state s) (at_plus_counter s) (out s) (env s).
Definition set_idx (v : Z) (s : at_state) : at_state :=
  mkState (at_cmd s) (at_cmd_len s) v (at_mode_active s) (at_cmd_ready s)
    (at_testmode s) (at_plus_state s) (at_plus_counter s) (out s) (env s).
Definition set_at_mode_active (v : bool) (s : at_state) : at_state :=
  mkState (at_cmd s) (at_cmd_len s) (idx s) v (at_cmd_ready s)
    (at_testmode s) (at_plus_state s) (at_plus_counter s) (out s) (env s).
Definition set_at_cmd_ready (v : bool) (s : at_state) : at_state :=
  mkState (at_cmd s) (at_cmd_len s) (idx s) (at_mode_active s) v
    (at_testmode s) (at_plus_state s) (at_plus_counter s) (out s) (env s).
Definition set_at_testmode (v : Z) (s : at_state) : at_state :=
  mkState (at_cmd s) (at_cmd_len s) (idx s) (at_mode_active s) (at_cmd_ready s)
    v (at_plus_state s) (at_plus_counter s) (out s) (env s).
Definition set_at_plus_state (v : Z) (s : at_state) : at_state :=
  mkState (at_cmd s) (at_cmd_len s) (idx s) (at_mode_active s) (at_cmd_ready s)
    (at_testmode s) v (at_plus_counter s) (out s) (env s).
Definition set_at_plus_counter (v : Z) (s : at_state) : at_state :=
  mkState (at_cmd s) (at_cmd_len s) (idx s) (at_mode_active s) (at_cmd_ready s)
    (at_testmode s) (at_plus_state s) v (out s) (env s).
Definition set_out (v : list event) (s : at_state) : at_state :=
  mkState (at_cmd s) (at_cmd_len s) (idx s) (at_mode_active s) (at_cmd_ready s)
    (at_testmode s) (at_plus_state s) (at_plus_counter s) v (env s).
Definition set_env (v : world) (s : at_state) : at_state :=
  mkState (at_cmd s) (at_cmd_len s) (idx s) (at_mode_active s) (at_cmd_ready s)
    (at_testmode s) (at_plus_state s) (at_plus_counter s) (out s) v.

(** ** Outcomes and the monad *)

Inductive access : Type := Load | Store.

Inductive halt : Type :=
  | SoftwareReset     (* ATZ: RSTSRC |= (1 << 4); for (;;); *)
  | ForcedFault.      (* AT&UPDATE: read of code address 0xfc00; for (;;); *)

Inductive result (A : Type) : Type :=
  | Ok (a : A) (s : at_state)
  | OutOfBounds (k : access)
  | Halt (h : halt) (s : at_state)
  | Diverge.
Arguments Ok {A} a s.
Arguments OutOfBounds {A} k.
Arguments Halt {A} h s.
Arguments Diverge {A}.

Definition M (A : Type) : Type := at_state -> result A.

Definition ret {A} (a : A) : M A := fun s => Ok a s.

Definition bind {A B} (m : M A) (k : A -> M B) : M B := fun s =>
  match m s with
  | Ok a s' => k a s'
  | OutOfBounds a => OutOfBounds a
  | Halt h s' => Halt h s'
  | Diverge => Diverge
  end.

Notation "'let*' x ':=' m 'in' k" := (bind m (fun x => k))
  (at level 10, x name, m at level 100, k at level 200).
Notation "m ';;' k" := (bind m (fun _ => k))
  (at level 100, k at level 200, right associativity).

Definition gets {A} (f : at_state -> A) : M A := fun s => Ok (f s) s.
Definition modify (f : at_state -> at_state) : M unit := fun s => Ok tt (f s).
Definition halt_with {A} (h : halt) : M A := fun s => Halt h s.

(** [at_cmd[i]] as an rvalue and as an lvalue. *)
Definition load (i : Z) : M Z := fun s =>
  match at_cmd s !! Z.to_nat i with
  | Some c => Ok c s
  | None => OutOfBounds Load
  end.

Definition store (i v : Z) : M unit := fun s =>
  match at_cmd s !! Z.to_nat i with
  | Some _ => Ok tt (set_at_cmd (<[Z.to_nat i := v]> (at_cmd s)) s)
  | None => OutOfBounds Store
  end.

Definition emit (e : event) : M unit :=
  modify (fun s => set_out (out s ++ [e]) s).

(** A call to a collaborator: logged, answered from the world. *)
Definition do_call (c : call) : M Z := fun s =>
  let (r, w) := collab c (env s) in
  Ok r (set_env w (set_out (out s ++ [Called c]) s)).

Definition putchar (c : Z) : M unit := emit (Putchar c).

(** ** at_input: the line editor *)

Definition at_input (c : Z) : M unit :=
  if c =? c_CR then
    putchar c_NL;;
    (let* n := gets at_cmd_len in store n c_NUL);;
    modify (set_at_cmd_ready true)
  else if (c =? c_BS) || (c =? c_DEL) then
    let* n := gets at_cmd_len in
    if 0 <? n then
      putchar c_BS;; putchar c_SP;; putchar c_BS;;
      modify (set_at_cmd_len (u8 (n - 1)))
    else ret tt
  else
    let* n := gets at_cmd_len in
    if n <? AT_CMD_MAXLEN then
      if isprint c then
        let c := u8 (toupper c) in
        store n c;;
        modify (set_at_cmd_len (u8 (n + 1)));;
        putchar c
      else ret tt
    else
      modify (set_at_mode_active false);;
      modify (set_at_cmd_len 0).

(** ** The +++ detector *)

Definition at_plus_detector (c : Z) (s : at_state) : at_state :=
  let s := if negb (c =? c_plus) then set_at_plus_state ATP_WAIT_FOR_IDLE s
           else s in
  let st := at_plus_state s in
  if (st =? ATP_WAIT_FOR_PLUS1) || (st =? ATP_WAIT_FOR_PLUS2) then
    set_at_plus_state (u8 (st + 1)) s
  else if st =? ATP_WAIT_FOR_PLUS3 then
    set_at_plus_counter ATP_COUNT_1S (set_at_plus_state ATP_WAIT_FOR_ENABLE s)
  else if (st =? ATP_WAIT_FOR_IDLE) || (st =? ATP_WAIT_FOR_ENABLE) then
    set_at_plus_counter ATP_COUNT_1S s
  else
    (* default: falls through into the two cases above *)
    set_at_plus_counter ATP_COUNT_1S (set_at_plus_state ATP_WAIT_FOR_IDLE s).

(** ** The 100Hz timer *)

Definition at_timer : M unit :=
  let* n := gets at_plus_counter in
  if 0 <? n then
    modify (set_at_plus_counter (u8 (n - 1)));;
    let* n := gets at_plus_counter in
    if n =? 0 then
      let* st := gets at_plus_state in
      if st =? ATP_WAIT_FOR_IDLE then
        modify (set_at_plus_state ATP_WAIT_FOR_PLUS1)
      else if st =? ATP_WAIT_FOR_ENABLE then
        (if WATCH_DOG_ENABLE
         then (let* _ := do_call (sfr_PCA0MD_watchdog false) in ret tt)
         else ret tt);;
        modify (set_at_mode_active true);;
        modify (set_at_plus_state ATP_WAIT_FOR_IDLE);;
        store 0 c_A;;
        store 1 c_T;;
        store 2 c_NUL;;
        modify (set_at_cmd_len 2);;
        modify (set_at_cmd_ready true)
      else ret tt
    else ret tt
  else ret tt.

(** ** The numeric lexer

    [idx] is a [uint8_t]: after 256 digits it is back where it started, so
    256 rounds without leaving the loop mean the loop never ends. *)

Fixpoint at_parse_loop (fuel : nat) (reg : Z) : M Z :=
  match fuel with
  | O => fun _ => Diverge
  | S fuel' =>
    let* i := gets idx in
    let* c := load i in
    if negb (isdigit c) then ret reg
    else
      modify (set_idx (u8 (i + 1)));;
      at_parse_loop fuel' (u32 (reg * 10 + (c - c_0)))
  end.

Definition at_parse_number : M Z := at_parse_loop 256 0.

(** ** Replies *)

Definition at_ok : M unit :=
  let* n := gets (fun s => nodeId (env s)) in emit (ReplyOK n).

Definition at_error : M unit :=
  let* n := gets (fun s => nodeId (env s)) in emit (ReplyERROR n).

(** ** ATI *)

(** [for (id = 0; id < PARAM_MAX; id++) param_print(id);] with a
    [uint8_t id]. *)
Fixpoint at_i_dump (fuel : nat) (id : Z) : M unit :=
  match fuel with
  | O => fun _ => Diverge
  | S fuel' =>
    if id <? PARAM_MAX then
      (let* _ := do_call (param_print_call id) in ret tt);;
      at_i_dump fuel' (u8 (id + 1))
    else ret tt
  end.

Definition at_i : M unit :=
  let* node := gets (fun s => nodeId (env s)) in
  let* c := load 3 in
  if (c =? c_NUL) || (c =? c_0) then emit (PrintBanner node)
  else if c =? c_1 then emit (PrintVersion node)
  else if c =? c_2 then emit (PrintU node BOARD_ID)
  else if c =? c_3 then
    let* f := gets (fun s => g_board_frequency (env s)) in emit (PrintU node f)
  else if c =? c_4 then
    let* v := gets (fun s => g_board_bl_version (env s)) in emit (PrintU node v)
  else if c =? c_5 then at_i_dump 256 0
  else if c =? c_6 then (let* _ := do_call tdm_report_timing_call in ret tt)
  else if c =? c_7 then (let* _ := do_call tdm_show_rssi_call in ret tt)
  else if c =? c_8 then
    if node =? 0 then emit (PrintSyncBase node)
    else let* v := do_call tdm_state_sync_call in emit (PrintSync node v)
  else at_error.

(** ** ATS *)

Definition at_s : M unit :=
  modify (set_idx 3);;
  let* n := at_parse_number in
  let sreg := u8 n in
  if PARAM_MAX <=? sreg then at_error
  else
    let* i := gets idx in
    let* c := load i in
    if c =? c_qm then
      let* val := do_call (param_get_call sreg) in
      let* node := gets (fun s => nodeId (env s)) in
      emit (PrintLU node (u32 val))
    else if c =? c_eq then
      if 0 <? sreg then
        modify (set_idx (u8 (i + 1)));;
        let* val := at_parse_number in
        let* accepted := do_call (param_set_call sreg val) in
        if negb (accepted =? 0) then at_ok else at_error
      else at_error
    else at_error.

(** ** AT& *)

(** [!strcmp(at_cmd + i, lit)] for a literal [lit] without NUL inside. *)
Fixpoint strcmp_eq (lit : list Z) (i : Z) : M bool :=
  match lit with
  | [] => let* c := load i in ret (c =? c_NUL)
  | l :: lit' =>
    let* c := load i in
    if c =? l then strcmp_eq lit' (i + 1) else ret false
  end.

Definition lit_PDATE : list Z := [c_P; c_D; c_A; c_T; c_E].
Definition lit_eqRSSI : list Z := [c_eq; c_R; c_S; c_S; c_I].
Definition lit_eqTDM : list Z := [c_eq; c_T; c_D; c_M].

Definition at_ampersand : M unit :=
  let* c := load 3 in
  if c =? c_F then
    (let* _ := do_call param_default_call in ret tt);; at_ok
  else if c =? c_W then
    (let* _ := do_call param_save_call in ret tt);; at_ok
  else if c =? c_U then
    let* upd := strcmp_eq lit_PDATE 4 in
    if upd then halt_with ForcedFault else at_error
  else if c =? c_T then
    let* none := strcmp_eq [] 4 in
    if none then modify (set_at_testmode 0)
    else
      let* rssi := strcmp_eq lit_eqRSSI 4 in
      if rssi then
        modify (fun s => set_at_testmode (u8 (Z.lxor (at_testmode s) AT_TEST_RSSI)) s)
      else
        let* tdm := strcmp_eq lit_eqTDM 4 in
        if tdm then
          modify (fun s => set_at_testmode (u8 (Z.lxor (at_testmode s) AT_TEST_TDM)) s)
        else at_error
  else at_error.

(** ** ATP *)

(** [for (pinId = 0; pinId < PIN_MAX; pinId++) { ... }] with a
    [uint8_t pinId]. *)
Fixpoint at_p_dump (fuel : nat) (pinId : Z) : M unit :=
  match fuel with
  | O => fun _ => Diverge
  | S fuel' =>
    if pinId <? PIN_MAX then
      let* node := gets (fun s => nodeId (env s)) in
      emit (PrintPin node pinId);;
      let* io := do_call (pins_user_get_io_call pinId) in
      (if negb (io =? 0) then emit PrintOutput else emit PrintInput);;
      let* v := do_call (pins_user_get_value_call pinId) in
      emit (PrintVal v);;
      at_p_dump fuel' (u8 (pinId + 1))
    else ret tt
  end.

Definition at_p : M unit :=
  let* c3 := load 3 in
  if c3 =? c_P then at_p_dump 256 0
  else
    let* c4 := load 4 in
    let* bad := (if negb (c4 =? c_eq) then ret true
                 else let* c5 := load 5 in ret (negb (isdigit c5))) in
    if bad then at_error
    else
      let* c5 := load 5 in
      let pinId := u8 (c5 - c_0) in
      let* c3 := load 3 in
      if c3 =? c_O then
        (let* _ := do_call (pins_user_set_io_call pinId PIN_OUTPUT) in ret tt);;
        at_ok
      else if c3 =? c_I then
        (let* _ := do_call (pins_user_set_io_call pinId PIN_INPUT) in ret tt);;
        at_ok
      else if c3 =? c_R then
        let* io := do_call (pins_user_get_io_call pinId) in
        if Bool.eqb (negb (io =? 0)) PIN_INPUT then
          let* node := gets (fun s => nodeId (env s)) in
          let* v := do_call (pins_user_get_adc_call pinId) in
          emit (PrintAdc node v)
        else at_error
      else if c3 =? c_C then
        let* c7 := load 7 in
        let* bad := (if negb (isdigit c7) then ret true
                     else
                       let* c7 := load 7 in
                       let* okv := do_call (pins_user_set_value_call pinId (c7 - c_0)) in
                       ret (okv =? 0)) in
        if bad then at_error else at_ok
      else at_error.

(** ** AT+ *)

Definition at_plus : M unit :=
  if BOARD_rfd900a then
    modify (set_idx 4);;
    let* n := at_parse_number in
    let creg := u8 n in
    let* c3 := load 3 in
    if c3 =? c_P then
      let* c4 := load 4 in
      if negb (c4 =? c_eq) then at_error
      else
        modify (set_idx 5);;
        let* val := at_parse_number in
        (let* _ := do_call (sfr_PCA0CPH0_write (Z.land val 255)) in ret tt);;
        (let* _ := do_call (radio_set_diversity_call false) in ret tt);;
        at_ok
    else if c3 =? c_C then
      let* i := gets idx in
      let* c := load i in
      if c =? c_qm then
        let* val := do_call (calibration_get_call creg) in
        emit (PrintCal (u32 val))
      else if c =? c_eq then
        modify (set_idx (u8 (i + 1)));;
        let* val := at_parse_number in
        let* okv := do_call (calibration_set_call creg (Z.land val 255)) in
        if negb (okv =? 0) then at_ok else at_error
      else at_error
    else if c3 =? c_L then
      let* okv := do_call calibration_lock_call in
      if negb (okv =? 0) then at_ok else at_error
    else at_error
  else at_error.

(** ** at_command: the dispatcher *)

(** [(at_cmd_len >= 2) && (at_cmd[0] == a) && (at_cmd[1] == b)] *)
Definition has_prefix (a b : Z) : M bool :=
  let* n := gets at_cmd_len in
  if 2 <=? n then
    let* c0 := load 0 in
    if c0 =? a then let* c1 := load 1 in ret (c1 =? b) else ret false
  else ret false.

(** [for (;;) { if (at_cmd_len <= idx || at_cmd[idx] == ',') break; idx++; }] *)
Fixpoint rt_scan (fuel : nat) : M unit :=
  match fuel with
  | O => fun _ => Diverge
  | S fuel' =>
    let* n := gets at_cmd_len in
    let* i := gets idx in
    let* stop := (if n <=? i then ret true
                  else let* c := load i in ret (c =? c_comma)) in
    if stop then ret tt
    else modify (set_idx (u8 (i + 1)));; rt_scan fuel'
  end.

Definition tdm_remote_at (destination : Z) : M unit :=
  let* cmd := gets at_cmd in
  let* _ := do_call (tdm_remote_at_call destination cmd) in ret tt.

Definition at_command : M unit :=
  let* ready := gets at_cmd_ready in
  if ready then
    let* rt_prefix := has_prefix c_R c_T in
    if rt_prefix then
      modify (set_idx 3);;
      rt_scan 256;;
      let* i := gets idx in
      let* c := load i in
      (if c =? c_comma then
         store i c_NUL;;
         modify (set_idx (u8 (i + 1)));;
         let* n := at_parse_number in
         let destination := u16 n in
         tdm_remote_at destination
       else tdm_remote_at 65535);;
      modify (set_at_cmd_len 0);;
      modify (set_at_cmd_ready false)
    else
      let* at_prefix := has_prefix c_A c_T in
      (if at_prefix then
         let* c := load 2 in
         if c =? c_NUL then at_ok
         else if c =? c_amp then at_ampersand
         else if c =? c_plus then at_plus
         else if c =? c_I then at_i
         else if c =? c_P then at_p
         else if c =? c_O then
           modify (set_at_plus_counter ATP_COUNT_1S);;
           modify (set_at_mode_active false);;
           (if WATCH_DOG_ENABLE
            then (let* _ := do_call (sfr_PCA0MD_watchdog true) in ret tt)
            else ret tt)
         else if c =? c_S then at_s
         else if c =? c_Z then
           (let* _ := do_call sfr_RSTSRC_swreset in ret tt);;
           halt_with SoftwareReset
         else at_error
       else ret tt);;
      modify (set_at_cmd_len 0);;
      modify (set_at_cmd_ready false)
  else ret tt.

(** The state a collaborator call leaves, and its answer. *)
Definition called (c : call) (s : at_state) : at_state :=
  set_env (snd (collab c (env s))) (set_out (out s ++ [Called c]) s).
Definition answer (c : call) (s : at_state) : Z := fst (collab c (env s)).

(** ** Driving the detector and the timer

    The serial interrupt hands every received byte to the detector and the
    timer interrupt calls [at_timer] once per tick. *)

Inductive input : Type :=
  | Byte (c : Z)
  | Tick.

Definition step (e : input) : M unit :=
  match e with
  | Byte c => modify (at_plus_detector c)
  | Tick => at_timer
  end.

Fixpoint run (evs : list input) : M unit :=
  match evs with
  | [] => ret tt
  | e :: evs' => step e;; run evs'
  end.

Definition ticks (n : nat) : list input := replicate n Tick.

(** [always P evs s]: feeding [evs] from [s] never fails, and [P] holds in
    [s] and in every state passed through. *)
Fixpoint always (P : at_state -> Prop) (evs : list input) (s : at_state) : Prop :=
  P s /\
  match evs with
  | [] => True
  | e :: evs' => exists s', step e s = Ok tt s' /\ always P evs' s'
  end.

(** The states the detector and the timer can bring about after power-on,
    where [at_plus_state] is zero and [at_plus_counter] is [ATP_COUNT_1S]. *)
Inductive reachable : at_state -> Prop :=
  | reach_init s :
      at_plus_state s = ATP_WAIT_FOR_IDLE ->
      at_plus_counter s = ATP_COUNT_1S ->
      reachable s
  | reach_byte c s :
      reachable s -> reachable (at_plus_detector c s)
  | reach_tick s s' :
      reachable s -> at_timer s = Ok tt s' -> reachable s'.

(** How many ['+'] the detector still has to see before it is armed. *)
Definition pluses_to_arm (s : at_state) : Z :=
  let st := at_plus_state s in
  if st =? ATP_WAIT_FOR_ENABLE then 0
  else if st =? ATP_WAIT_FOR_PLUS3 then 1
  else if st =? ATP_WAIT_FOR_PLUS2 then 2
  else 3.

Fixpoint count_plus (evs : list input) : Z :=
  match evs with
  | [] => 0
  | Byte c :: evs' => (if c =? c_plus then 1 else 0) + count_plus evs'
  | Tick :: evs' => count_plus evs'
  end.

(** ** Well-formed buffers and platforms *)

(** [at_cmd] has its [AT_CMD_MAXLEN + 1] cells, the last of which is never
    written with anything but NUL, and [at_cmd_len] is within the maximum. *)
Definition buffer_inv (s : at_state) : Prop :=
  Z.of_nat (length (at_cmd s)) = AT_CMD_MAXLEN + 1 /\
  at_cmd s !! Z.to_nat AT_CMD_MAXLEN = Some c_NUL /\
  0 <= at_cmd_len s <= AT_CMD_MAXLEN.

(** The handlers index [at_cmd] up to cell 7, and the lengths and the loop
    counters are [uint8_t]. *)
Definition platform_ok : Prop :=
  7 <= AT_CMD_MAXLEN <= 255 /\ PARAM_MAX <= 255 /\ PIN_MAX <= 255.

(** ** The decimal reading of a digit string, for the numeric lexer *)

Fixpoint digits_prefix (l : list Z) : list Z :=
  match l with
  | c :: l' => if isdigit c then c :: digits_prefix l' else []
  | [] => []
  end.

(** The number a string of digit characters denotes, most significant
    digit first. *)
Definition decimal (ds : list Z) : Z :=
  fold_left (fun acc d => acc * 10 + (d - c_0)) ds 0.

(** The digit characters of [at_cmd] from the cursor on. *)
Definition digit_run (s : at_state) : list Z :=
  digits_prefix (drop (Z.to_nat (idx s)) (at_cmd s)).

(** What the loop of the lexer accumulates over a digit string, from
    [reg]. *)
Definition accumulate (reg : Z) (ds : list Z) : Z :=
  fold_left (fun acc d => u32 (acc * 10 + (d - c_0))) ds reg.

(** [m] returns from [s], and leaves the buffer cells as they were. *)
Definition returns (m : M unit) (s : at_state) : Prop :=
  exists s', m s = Ok tt s' /\ at_cmd s' = at_cmd s.

(** The buffer as the dispatcher leaves it for the next line. *)
Definition unlocked (s : at_state) : Prop :=
  buffer_inv s /\ at_cmd_len s = 0 /\ at_cmd_ready s = false.

(** The destination an RT line names after the comma in cell [j]. *)
Definition rt_destination (j : Z) (s : at_state) : Z :=
  u16 (decimal (digits_prefix (drop (S (Z.to_nat j)) (at_cmd s))) mod 2 ^ 32).

(** What an ATS line asks for: the register (the number read at cell 3,
    narrowed to the eight bits of [sreg]), the cell after the number, and
    the number after that cell. *)
Definition at_s_index (s : at_state) : Z :=
  u8 (decimal (digit_run (set_idx 3 s)) mod 2 ^ 32).
Definition at_s_cursor (s : at_state) : Z :=
  3 + Z.of_nat (length (digit_run (set_idx 3 s))).
Definition at_s_value (s : at_state) : Z :=
  decimal (digit_run (set_idx (at_s_cursor s + 1) s)) mod 2 ^ 32.

(** The answer to an ATS line, in the words of the specification: ERROR
    for a register out of range; the value for [?]; for [=], OK when the
    register is not 0 and the store accepts the value, ERROR otherwise. *)
Definition at_s_reply (s : at_state) : list event :=
  let sreg := at_s_index s in
  if PARAM_MAX <=? sreg then [ReplyERROR (nodeId (env s))]
  else
    match at_cmd s !! Z.to_nat (at_s_cursor s) with
    | Some c =>
      if c =? c_qm then
        let q := param_get_call sreg in
        [Called q; PrintLU (nodeId (env (called q s))) (u32 (answer q s))]
      else if (c =? c_eq) && (0 <? sreg) then
        let w := param_set_call sreg (at_s_value s) in
        [Called w;
         if answer w s =? 0 then ReplyERROR (nodeId (env (called w s)))
         else ReplyOK (nodeId (env (called w s)))]
      else [ReplyERROR (nodeId (env s))]
    | None => []
    end.

(** ** Reading the trace *)

(** The pin a pin I/O call is made on. *)
Definition pin_of_call (c : call) : option Z :=
  match c with
  | pins_user_get_io_call pin => Some pin
  | pins_user_set_io_call pin _ => Some pin
  | pins_user_get_value_call pin => Some pin
  | pins_user_get_adc_call pin => Some pin
  | pins_user_set_value_call pin _ => Some pin
  | _ => None
  end.

Definition pin_below (bound : Z) (e : event) : Prop :=
  match e with
  | Called c =>
    match pin_of_call c with
    | Some pin => 0 <= pin < bound
    | None => True
    end
  | _ => True
  end.

(** Every pin I/O call among the events is made on the pin [pin]. *)
Definition on_pin (pin : Z) (e : event) : Prop :=
  match e with
  | Called c =>
    match pin_of_call c with
    | Some p => p = pin
    | None => True
    end
  | _ => True
  end.

(** The collaborator calls among the events of a trace, in order. *)
Definition calls_of (evs : list event) : list call :=
  omap (fun e => match e with Called c => Some c | _ => None end) evs.

Definition is_reply (e : event) : bool :=
  match e with
  | ReplyOK _ | ReplyERROR _ => true
  | _ => false
  end.

(** Calls whose register or value argument is a byte. *)
Definition byte_args (e : event) : Prop :=
  match e with
  | Called (sfr_PCA0CPH0_write v) => 0 <= v <= 255
  | Called (calibration_set_call r v) => 0 <= r <= 255 /\ 0 <= v <= 255
  | Called (calibration_get_call r) => 0 <= r <= 255
  | _ => True
  end.

(** [s'] differs from [s] at most in the detector's state and counter. *)
Definition same_line (s s' : at_state) : Prop :=
  at_mode_active s' = at_mode_active s /\
  at_cmd_ready s' = at_cmd_ready s /\
  at_cmd s' = at_cmd s /\
  at_cmd_len s' = at_cmd_len s /\
  out s' = out s.

(** What ATO leaves: out of command mode, the counter at a full second,
    the watchdog back on where there is one. *)
Definition go_online (s : at_state) : at_state :=
  let s1 := set_at_mode_active false (set_at_plus_counter ATP_COUNT_1S s) in
  if WATCH_DOG_ENABLE then called (sfr_PCA0MD_watchdog true) s1 else s1.

(** The world after the calls [cs] have been made in turn from [w]. *)
Definition world_after (cs : list call) (w : world) : world :=
  fold_left (fun w c => snd (collab c w)) cs w.

(** The parameter store gives back what it took: after a write it
    accepted, a read of the same parameter returns the value written. *)
Definition store_keeps : Prop :=
  forall id v w,
    fst (collab (param_set_call id v) w) <> 0 ->
    fst (collab (param_get_call id) (snd (collab (param_set_call id v) w))) = v.

(** What an outcome has written and called. *)
Definition output_of {A} (r : result A) : list event :=
  match r with
  | Ok _ s => out s
  | Halt _ s => out s
  | _ => []
  end.

(** ** States named in the statements below *)

(** What the timer does when the armed countdown ends. *)
Definition enter_command_mode (s : at_state) : at_state :=
  set_at_cmd_ready true
    (set_at_cmd_len 2
       (set_at_cmd
          (<[2%nat := c_NUL]> (<[1%nat := c_T]> (<[0%nat := c_A]> (at_cmd s))))
          (set_at_plus_state ATP_WAIT_FOR_IDLE
             (set_at_mode_active true
                (if WATCH_DOG_ENABLE
                 then called (sfr_PCA0MD_watchdog false)
                        (set_at_plus_counter 0 s)
                 else set_at_plus_counter 0 s))))).



(** What the detector and the timer maintain between them: the counter
    runs only in the idle and the armed state. *)
Definition detector_inv (s : at_state) : Prop :=
  0 <= at_plus_counter s <= ATP_COUNT_1S /\
  0 <= at_plus_state s <= ATP_WAIT_FOR_ENABLE /\
  (at_plus_counter s <> 0 ->
   at_plus_state s = ATP_WAIT_FOR_IDLE \/
   at_plus_state s = ATP_WAIT_FOR_ENABLE).

End Firmware.

#[global] Arguments Ok {PF A} a s.
#[global] Arguments OutOfBounds {PF A} k.
#[global] Arguments Halt {PF A} h s.
#[global] Arguments Diverge {PF A}.

(** ** A sample platform

    One choice of the constants and collaborators, to run the firmware on
    concrete input: a 16 character command buffer, 19 parameters, 6 user
    pins; the world is the parameter store, which accepts every write. *)
Definition sample_collab (c : call) (w : Z -> Z) : Z * (Z -> Z) :=
  match c with
  | param_get_call id => (w id, w)
  | param_set_call id val => (1, fun i => if i =? id then val else w i)
  | _ => (0, w)
  end.

Definition sample : Platform := {|
  world := Z -> Z;
  AT_CMD_MAXLEN := 16;
  PARAM_MAX := 19;
  PIN_MAX := 6;
  PIN_INPUT := false;
  PIN_OUTPUT := true;
  AT_TEST_RSSI := 1;
  AT_TEST_TDM := 2;
  BOARD_ID := 66;
  BOARD_rfd900a := true;
  WATCH_DOG_ENABLE := false;
  nodeId := fun _ => 1;
  g_board_frequency := fun _ => 145;
  g_board_bl_version := fun _ => 1;
  collab := sample_collab
|}.

(** The state after power-on: everything zero but the tick counter. *)
Definition power_on : @at_state sample :=
  @mkState sample (replicate 17 0) 0 0 false false 0
    ATP_WAIT_FOR_IDLE ATP_COUNT_1S [] (fun _ => 0).

(** A state with the ready line [line] in an otherwise zeroed buffer, in
    command mode. *)
Definition with_line (line : list Z) : @at_state sample :=
  @mkState sample (line ++ replicate (17 - length line) 0)
    (Z.of_nat (length line)) 0 true true 0
    ATP_WAIT_FOR_IDLE 0 [] (fun _ => 0).

(** The state after power-on once command mode has been entered. *)
Definition in_command_mode : @at_state sample :=
  set_at_mode_active true power_on.

(** Feeding a string of bytes to the line editor. *)
Fixpoint type_in `{PF : Platform} (cs : list Z) : M unit :=
  match cs with
  | [] => ret tt
  | c :: cs' => bind (at_input c) (fun _ => type_in cs')
  end.

(** * Properties *)

Section Properties.
Context `{PF : Platform}.

Implicit Types (s : at_state) (c : Z).

(** ** Running the monad on a state, one statement at a time *)

Lemma bind_bind {A B C} (m : M A) (k : A -> M B) (k' : B -> M C) s :
  bind (bind m k) k' s = bind m (fun a => bind (k a) k') s.
Proof. unfold bind. destruct (m s); reflexivity. Qed.

Lemma bind_ret {A B} (a : A) (k : A -> M B) s : bind (ret a) k s = k a s.
Proof. reflexivity. Qed.

Lemma bind_gets {A B} (f : at_state -> A) (k : A -> M B) s :
  bind (gets f) k s = k (f s) s.
Proof. reflexivity. Qed.

Lemma bind_modify {B} (f : at_state -> at_state) (k : unit -> M B) s :
  bind (modify f) k s = k tt (f s).
Proof. reflexivity. Qed.

Lemma bind_emit {B} (e : event) (k : unit -> M B) s :
  bind (emit e) k s = k tt (set_out (out s ++ [e]) s).
Proof. reflexivity. Qed.

Lemma bind_halt {A B} (h : halt) (k : A -> M B) s :
  bind (halt_with h) k s = Halt h s.
Proof. reflexivity. Qed.

Lemma do_call_eq (c : call) s : do_call c s = Ok (answer c s) (called c s).
Proof.
  unfold do_call, answer, called. destruct (collab c (env s)); reflexivity.
Qed.

Lemma bind_do_call {B} (c : call) (k : Z -> M B) s :
  bind (do_call c) k s = k (answer c s) (called c s).
Proof. unfold bind. rewrite do_call_eq. reflexivity. Qed.

Lemma load_eq (i v : Z) s :
  at_cmd s !! Z.to_nat i = Some v -> load i s = Ok v s.
Proof. intros Hv. unfold load. rewrite Hv. reflexivity. Qed.

Lemma bind_load {B} (i v : Z) (k : Z -> M B) s :
  at_cmd s !! Z.to_nat i = Some v -> bind (load i) k s = k v s.
Proof. intros Hv. unfold bind. rewrite (load_eq _ _ _ Hv). reflexivity. Qed.

Lemma store_eq (i v : Z) s :
  (Z.to_nat i < length (at_cmd s))%nat ->
  store i v s = Ok tt (set_at_cmd (<[Z.to_nat i := v]> (at_cmd s)) s).
Proof.
  intros Hi. unfold store.
  destruct (lookup_lt_is_Some_2 _ _ Hi) as [x ->]. reflexivity.
Qed.

Lemma bind_store {B} (i v : Z) (k : unit -> M B) s :
  (Z.to_nat i < length (at_cmd s))%nat ->
  bind (store i v) k s =
    k tt (set_at_cmd (<[Z.to_nat i := v]> (at_cmd s)) s).
Proof. intros Hi. unfold bind. rewrite (store_eq _ _ _ Hi). reflexivity. Qed.

(** Projections of updated states. *)
Ltac fields :=
  cbn [at_cmd at_cmd_len idx at_mode_active at_cmd_ready at_testmode
       at_plus_state at_plus_counter out env
       set_at_cmd set_at_cmd_len set_idx set_at_mode_active set_at_cmd_ready
       set_at_testmode set_at_plus_state set_at_plus_counter set_out set_env
       called] in *.

(** One statement that needs no side condition. *)
Ltac mstep :=
  first [ rewrite bind_bind | rewrite bind_ret | rewrite bind_gets
        | rewrite bind_modify | rewrite bind_emit | rewrite bind_do_call
        | rewrite bind_halt ];
  cbv beta.

Ltac msteps :=
  unfold putchar, at_ok, at_error, tdm_remote_at;
  repeat mstep; fields.


Lemma u8_small (z : Z) : 0 <= z < 256 -> u8 z = z.
Proof. intros Hz. unfold u8. apply Z.mod_small. lia. Qed.

Lemma Zeqb_ne (a b : Z) : a <> b -> (a =? b) = false.
Proof. apply Z.eqb_neq. Qed.

(** ** The line editor *)

(** C2: with the buffer full, a byte that is neither CR nor backspace nor
    delete, printable or not, makes [at_input] leave command mode and empty
    the buffer; nothing is echoed and the buffer cells are left alone. *)
Theorem at_input_overflow_leaves_command_mode c s :
  at_cmd_len s = AT_CMD_MAXLEN ->
  c <> c_CR -> c <> c_BS -> c <> c_DEL ->
  exists s',
    at_input c s = Ok tt s' /\
    at_mode_active s' = false /\
    at_cmd_len s' = 0 /\
    out s' = out s /\
    at_cmd s' = at_cmd s.
Proof.
  intros Hfull Hcr Hbs Hdel.
  unfold at_input.
  rewrite (Zeqb_ne _ _ Hcr), (Zeqb_ne _ _ Hbs), (Zeqb_ne _ _ Hdel).
  change (false || false) with false. cbv iota.
  msteps. rewrite Hfull, Z.ltb_irrefl. msteps.
  eexists; split; [reflexivity | fields; auto].
Qed.

(** ** The detector, one byte at a time *)

Lemma detector_not_plus c s :
  c <> c_plus ->
  at_plus_detector c s =
    set_at_plus_counter ATP_COUNT_1S (set_at_plus_state ATP_WAIT_FOR_IDLE s).
Proof.
  intros Hc. unfold at_plus_detector.
  rewrite (Zeqb_ne _ _ Hc). reflexivity.
Qed.

Lemma detector_plus_armed s :
  at_plus_state s = ATP_WAIT_FOR_ENABLE ->
  at_plus_detector c_plus s = set_at_plus_counter ATP_COUNT_1S s.
Proof.
  intros Hst. unfold at_plus_detector. simpl. rewrite Hst. reflexivity.
Qed.

(** C3: in the armed state every byte restarts the countdown at 100 ticks,
    a ['+'] staying armed and any other byte going back to idle; and in
    every state a byte other than ['+'] is handled exactly as it is in the
    idle state, which is also where it ends. *)
Theorem detector_armed_restarts_countdown c s s0 :
  at_plus_state s = ATP_WAIT_FOR_ENABLE ->
  (at_plus_counter (at_plus_detector c s) = ATP_COUNT_1S /\
   (c = c_plus ->
    at_plus_state (at_plus_detector c s) = ATP_WAIT_FOR_ENABLE) /\
   (c <> c_plus ->
    at_plus_state (at_plus_detector c s) = ATP_WAIT_FOR_IDLE)) /\
  (c <> c_plus ->
   at_plus_detector c s0 =
     at_plus_detector c (set_at_plus_state ATP_WAIT_FOR_IDLE s0) /\
   at_plus_state (at_plus_detector c s0) = ATP_WAIT_FOR_IDLE /\
   at_plus_counter (at_plus_detector c s0) = ATP_COUNT_1S).
Proof.
  intros Harmed. split; [split; [|split] |].
  - destruct (Z.eq_dec c c_plus) as [-> | Hc].
    + rewrite (detector_plus_armed _ Harmed). reflexivity.
    + rewrite (detector_not_plus _ _ Hc). reflexivity.
  - intros ->. rewrite (detector_plus_armed _ Harmed). exact Harmed.
  - intros Hc. rewrite (detector_not_plus _ _ Hc). reflexivity.
  - intros Hc. rewrite !(detector_not_plus _ _ Hc). auto.
Qed.


(** ** The timer, one tick at a time *)

Lemma timer_stopped s : at_plus_counter s <= 0 -> at_timer s = Ok tt s.
Proof.
  intros Hc. unfold at_timer. msteps.
  destruct (Z.ltb_spec 0 (at_plus_counter s)); [lia | reflexivity].
Qed.

Lemma timer_counts s :
  1 < at_plus_counter s <= 256 ->
  at_timer s = Ok tt (set_at_plus_counter (at_plus_counter s - 1) s).
Proof.
  intros Hc. unfold at_timer. msteps.
  destruct (Z.ltb_spec 0 (at_plus_counter s)); [| lia].
  msteps.
  rewrite u8_small, Zeqb_ne by lia. reflexivity.
Qed.

Lemma timer_expires_idle s :
  at_plus_counter s = 1 ->
  at_plus_state s = ATP_WAIT_FOR_IDLE ->
  at_timer s =
    Ok tt (set_at_plus_state ATP_WAIT_FOR_PLUS1 (set_at_plus_counter 0 s)).
Proof.
  intros Hc Hst. unfold at_timer. msteps. rewrite Hc. simpl.
  msteps. simpl. msteps. rewrite Hst. reflexivity.
Qed.

Lemma timer_expires_other s :
  at_plus_counter s = 1 ->
  at_plus_state s <> ATP_WAIT_FOR_IDLE ->
  at_plus_state s <> ATP_WAIT_FOR_ENABLE ->
  at_timer s = Ok tt (set_at_plus_counter 0 s).
Proof.
  intros Hc Hst Hst'. unfold at_timer. msteps. rewrite Hc. simpl.
  msteps. simpl. msteps. rewrite !Zeqb_ne by assumption. reflexivity.
Qed.

Lemma timer_expires_armed s :
  at_plus_counter s = 1 ->
  at_plus_state s = ATP_WAIT_FOR_ENABLE ->
  at_timer s =
    if decide (3 <= length (at_cmd s))%nat
    then Ok tt (enter_command_mode s)
    else OutOfBounds Store.
Proof.
  intros Hc Hst. unfold at_timer. msteps. rewrite Hc. simpl.
  msteps. simpl. msteps. rewrite Hst. simpl.
  change (u8 (1 - 1)) with 0. unfold enter_command_mode.
  destruct WATCH_DOG_ENABLE; msteps;
    (destruct (at_cmd s) as [|a [|b [|c l]]] eqn:E;
     unfold bind, store, modify; fields; rewrite ?E; simpl; reflexivity).
Qed.

Lemma enter_command_mode_fields s :
  at_mode_active (enter_command_mode s) = true /\
  at_plus_state (enter_command_mode s) = ATP_WAIT_FOR_IDLE /\
  at_plus_counter (enter_command_mode s) = 0 /\
  at_cmd_len (enter_command_mode s) = 2 /\
  at_cmd_ready (enter_command_mode s) = true /\
  at_cmd (enter_command_mode s) =
    <[2%nat := c_NUL]> (<[1%nat := c_T]> (<[0%nat := c_A]> (at_cmd s))).
Proof.
  unfold enter_command_mode. destruct WATCH_DOG_ENABLE; fields; auto 10.
Qed.

Lemma detector_keeps_inv c s : detector_inv s -> detector_inv (at_plus_detector c s).
Proof.
  intros (Hcnt & Hst & Hrun).
  destruct (Z.eq_dec c c_plus) as [-> | Hc].
  - unfold at_plus_detector, detector_inv. simpl.
    destruct (Z.eqb_spec (at_plus_state s) 1) as [E1 | N1]; simpl.
    { rewrite E1. fields. rewrite u8_small by lia. intuition lia. }
    destruct (Z.eqb_spec (at_plus_state s) 2) as [E2 | N2]; simpl.
    { rewrite E2. fields. rewrite u8_small by lia. intuition lia. }
    destruct (Z.eqb_spec (at_plus_state s) 3) as [E3 | N3]; simpl.
    { intuition lia. }
    destruct (Z.eqb_spec (at_plus_state s) 0) as [E0 | N0]; simpl.
    { intuition lia. }
    destruct (Z.eqb_spec (at_plus_state s) 4) as [E4 | N4]; simpl;
      intuition lia.
  - rewrite (detector_not_plus _ _ Hc). unfold detector_inv. fields.
    intuition lia.
Qed.

Lemma timer_keeps_inv s s' :
  detector_inv s -> at_timer s = Ok tt s' -> detector_inv s'.
Proof.
  intros (Hcnt & Hst & Hrun) Ht.
  destruct (Z.eq_dec (at_plus_counter s) 0) as [E0 | N0].
  { rewrite timer_stopped in Ht by lia. injection Ht as <-.
    unfold detector_inv. auto. }
  destruct (Z.eq_dec (at_plus_counter s) 1) as [E1 | N1].
  - destruct (Hrun N0) as [Hidle | Harmed].
    + rewrite (timer_expires_idle _ E1 Hidle) in Ht. injection Ht as <-.
      unfold detector_inv. fields. intuition lia.
    + rewrite (timer_expires_armed _ E1 Harmed) in Ht.
      destruct (decide _); [| discriminate]. injection Ht as <-.
      destruct (enter_command_mode_fields s) as (Hm & Hs0 & Hc0 & _).
      unfold detector_inv. rewrite Hs0, Hc0. intuition lia.
  - rewrite timer_counts in Ht by lia. injection Ht as <-.
    unfold detector_inv. fields. intuition lia.
Qed.

Lemma reachable_inv s : reachable s -> detector_inv s.
Proof.
  induction 1 as [s Hst Hcnt | c s _ IH | s s' _ IH Ht].
  - unfold detector_inv. rewrite Hst, Hcnt. intuition lia.
  - apply detector_keeps_inv, IH.
  - eapply timer_keeps_inv; eauto.
Qed.

(** C10: in every state the detector and the timer can reach from power-on,
    a state that has seen the idle second or one or two pluses has its
    counter at zero, so that a tick changes nothing there; a running counter
    means the idle or the armed state. *)
Theorem plus_states_have_stopped_counter s :
  reachable s ->
  (1 <= at_plus_state s <= 3 ->
   at_plus_counter s = 0 /\ at_timer s = Ok tt s) /\
  (at_plus_counter s <> 0 ->
   at_plus_state s = ATP_WAIT_FOR_IDLE \/
   at_plus_state s = ATP_WAIT_FOR_ENABLE).
Proof.
  intros Hr. destruct (reachable_inv _ Hr) as (Hcnt & Hst & Hrun).
  split; [| exact Hrun].
  intros Hplus.
  assert (Hz : at_plus_counter s = 0).
  { destruct (Z.eq_dec (at_plus_counter s) 0) as [E | N]; [exact E |].
    destruct (Hrun N); lia. }
  split; [exact Hz | apply timer_stopped; lia].
Qed.

(** ** Sequences of bytes and ticks *)

Lemma bind_ok {A B} (m : M A) (k : A -> M B) s a s1 :
  m s = Ok a s1 -> bind m k s = k a s1.
Proof. intros Hm. unfold bind. rewrite Hm. reflexivity. Qed.

Lemma bind_ext {A B} (m : M A) (k k' : A -> M B) s :
  (forall a s', k a s' = k' a s') -> bind m k s = bind m k' s.
Proof. intros Hk. unfold bind. destruct (m s); auto. Qed.

Lemma run_app (a b : list input) s :
  run (a ++ b) s = bind (run a) (fun _ => run b) s.
Proof.
  revert s. induction a as [| e a IH]; intros s; simpl.
  - reflexivity.
  - rewrite bind_bind. apply bind_ext. intros _ s'. apply IH.
Qed.

Lemma run_cons e (evs : list input) s s1 :
  step e s = Ok tt s1 -> run (e :: evs) s = run evs s1.
Proof. intros He. simpl. unfold bind. rewrite He. reflexivity. Qed.

Lemma run_ticks_stopped n s :
  at_plus_counter s <= 0 -> run (ticks n) s = Ok tt s.
Proof.
  intros Hc. induction n as [| n IH]; simpl.
  - reflexivity.
  - rewrite (bind_ok _ _ _ _ _ (timer_stopped _ Hc)). exact IH.
Qed.

Lemma set_at_plus_counter_same s : set_at_plus_counter (at_plus_counter s) s = s.
Proof. destruct s; reflexivity. Qed.

Lemma run_ticks_idle_short n s :
  at_plus_state s = ATP_WAIT_FOR_IDLE ->
  Z.of_nat n < at_plus_counter s <= 256 ->
  run (ticks n) s =
    Ok tt (set_at_plus_counter (at_plus_counter s - Z.of_nat n) s).
Proof.
  revert s. induction n as [| n IH]; intros s Hst Hc.
  - simpl. rewrite Z.sub_0_r, set_at_plus_counter_same. reflexivity.
  - change (ticks (S n)) with (Tick :: ticks n).
    rewrite (run_cons Tick _ s _ (timer_counts s ltac:(lia))).
    rewrite IH by (fields; auto; lia). fields.
    unfold set_at_plus_counter; fields. do 2 f_equal. lia.
Qed.

Lemma run_ticks_idle n s :
  at_plus_state s = ATP_WAIT_FOR_IDLE ->
  1 <= at_plus_counter s <= 256 ->
  at_plus_counter s <= Z.of_nat n ->
  run (ticks n) s =
    Ok tt (set_at_plus_state ATP_WAIT_FOR_PLUS1 (set_at_plus_counter 0 s)).
Proof.
  revert s. induction n as [| n IH]; intros s Hst Hc Hn; [lia |].
  change (ticks (S n)) with (Tick :: ticks n).
  destruct (Z.eq_dec (at_plus_counter s) 1) as [E1 | N1].
  - rewrite (run_cons Tick _ s _ (timer_expires_idle s E1 Hst)).
    apply run_ticks_stopped. fields. lia.
  - rewrite (run_cons Tick _ s _ (timer_counts s ltac:(lia))).
    rewrite IH by (fields; auto; lia). reflexivity.
Qed.

Lemma enter_command_mode_counter v s :
  enter_command_mode (set_at_plus_counter v s) = enter_command_mode s.
Proof. unfold enter_command_mode. destruct WATCH_DOG_ENABLE; reflexivity. Qed.

Lemma run_ticks_armed n s :
  at_plus_state s = ATP_WAIT_FOR_ENABLE ->
  1 <= at_plus_counter s <= 256 ->
  at_plus_counter s <= Z.of_nat n ->
  (3 <= length (at_cmd s))%nat ->
  run (ticks n) s = Ok tt (enter_command_mode s).
Proof.
  revert s. induction n as [| n IH]; intros s Hst Hc Hn Hlen; [lia |].
  change (ticks (S n)) with (Tick :: ticks n).
  destruct (Z.eq_dec (at_plus_counter s) 1) as [E1 | N1].
  - assert (Ht : at_timer s = Ok tt (enter_command_mode s)).
    { rewrite (timer_expires_armed s E1 Hst).
      destruct (decide _); [reflexivity | lia]. }
    rewrite (run_cons Tick _ s _ Ht).
    apply run_ticks_stopped.
    destruct (enter_command_mode_fields s) as (_ & _ & -> & _). lia.
  - rewrite (run_cons Tick _ s _ (timer_counts s ltac:(lia))).
    rewrite IH by (fields; auto; lia).
    rewrite enter_command_mode_counter. reflexivity.
Qed.

(** The full sequence from an idle detector whose counter is running. *)
Lemma escape_sequence_enters s (n1 g1 g2 n2 : nat) :
  at_plus_state s = ATP_WAIT_FOR_IDLE ->
  1 <= at_plus_counter s <= ATP_COUNT_1S ->
  (3 <= length (at_cmd s))%nat ->
  (100 <= n1)%nat -> (100 <= n2)%nat ->
  exists s',
    run (ticks n1 ++ Byte c_plus :: ticks g1 ++ Byte c_plus ::
         ticks g2 ++ Byte c_plus :: ticks n2) s = Ok tt s' /\
    at_mode_active s' = true /\
    at_plus_state s' = ATP_WAIT_FOR_IDLE /\
    at_cmd_ready s' = true /\
    at_cmd_len s' = 2 /\
    take 3 (at_cmd s') = [c_A; c_T; c_NUL].
Proof.
  intros Hst Hc Hlen Hn1 Hn2.
  rewrite run_app, (bind_ok _ _ _ _ _ (run_ticks_idle n1 s Hst ltac:(lia) ltac:(lia))).
  set (s1 := set_at_plus_state 1 (set_at_plus_counter 0 s)).
  rewrite (run_cons (Byte c_plus) _ s1 _ eq_refl).
  set (s2 := at_plus_detector c_plus s1).
  rewrite run_app, (bind_ok _ _ _ _ _ (run_ticks_stopped g1 s2 ltac:(simpl; lia))).
  rewrite (run_cons (Byte c_plus) _ s2 _ eq_refl).
  set (s3 := at_plus_detector c_plus s2).
  rewrite run_app, (bind_ok _ _ _ _ _ (run_ticks_stopped g2 s3 ltac:(simpl; lia))).
  rewrite (run_cons (Byte c_plus) _ s3 _ eq_refl).
  set (s4 := at_plus_detector c_plus s3).
  rewrite (run_ticks_armed n2 s4) by (simpl; auto; lia).
  destruct (enter_command_mode_fields s4) as (Hm & Hs & _ & Hl & Hr & Hb).
  eexists; split; [reflexivity |].
  repeat (split; [assumption |]).
  rewrite Hb. change (at_cmd s4) with (at_cmd s).
  destruct (at_cmd s) as [| a [| b [| c l]]]; simpl in Hlen; try lia.
  reflexivity.
Qed.

(** ** What cannot arm the detector *)

Lemma timer_unarmed s :
  at_plus_state s <> ATP_WAIT_FOR_ENABLE ->
  exists s',
    at_timer s = Ok tt s' /\
    at_mode_active s' = at_mode_active s /\
    (at_plus_state s' = at_plus_state s \/
     at_plus_state s = ATP_WAIT_FOR_IDLE /\
     at_plus_state s' = ATP_WAIT_FOR_PLUS1).
Proof.
  intros Hst. unfold at_timer. msteps.
  destruct (0 <? at_plus_counter s); [| eauto].
  msteps.
  destruct (u8 (at_plus_counter s - 1) =? 0); [| eexists; split; eauto].
  msteps.
  destruct (Z.eqb_spec (at_plus_state s) 0) as [E0 | N0].
  - eexists; split; [reflexivity |]. fields. auto.
  - rewrite (Zeqb_ne _ _ Hst). eexists; split; [reflexivity |]. fields. auto.
Qed.

Lemma pluses_to_arm_pos s :
  0 < pluses_to_arm s <-> at_plus_state s <> ATP_WAIT_FOR_ENABLE.
Proof.
  unfold pluses_to_arm.
  destruct (Z.eqb_spec (at_plus_state s) 4);
    destruct (Z.eqb_spec (at_plus_state s) 3);
    destruct (Z.eqb_spec (at_plus_state s) 2); lia.
Qed.

Lemma timer_keeps_distance s :
  0 < pluses_to_arm s ->
  exists s',
    at_timer s = Ok tt s' /\
    at_mode_active s' = at_mode_active s /\
    pluses_to_arm s <= pluses_to_arm s'.
Proof.
  intros Hpos. apply pluses_to_arm_pos in Hpos.
  destruct (timer_unarmed s Hpos) as (s' & Ht & Hm & Hs).
  exists s'. split; [exact Ht |]. split; [exact Hm |].
  unfold pluses_to_arm.
  destruct Hs as [-> | [-> ->]]; [lia | simpl; lia].
Qed.

Lemma detector_keeps_distance c s :
  at_mode_active (at_plus_detector c s) = at_mode_active s /\
  pluses_to_arm s - (if c =? c_plus then 1 else 0)
    <= pluses_to_arm (at_plus_detector c s).
Proof.
  destruct (Z.eqb_spec c c_plus) as [-> | Hc].
  - unfold at_plus_detector, pluses_to_arm. simpl.
    remember (at_plus_state s) as st eqn:Est.
    destruct (Z.eq_dec st 1) as [-> | N1]; [simpl; fields; auto with zarith |].
    destruct (Z.eq_dec st 2) as [-> | N2]; [simpl; fields; auto with zarith |].
    destruct (Z.eq_dec st 3) as [-> | N3]; [simpl; fields; auto with zarith |].
    destruct (Z.eq_dec st 0) as [-> | N0].
    { simpl; fields. rewrite <- Est. simpl. auto with zarith. }
    destruct (Z.eq_dec st 4) as [-> | N4].
    { simpl; fields. rewrite <- Est. simpl. auto with zarith. }
    rewrite !Zeqb_ne by assumption. simpl. auto with zarith.
  - rewrite (detector_not_plus _ _ Hc). unfold pluses_to_arm. fields.
    split; [reflexivity |]. simpl.
    destruct (at_plus_state s =? 4), (at_plus_state s =? 3),
      (at_plus_state s =? 2); lia.
Qed.

Lemma count_plus_app (a b : list input) :
  count_plus (a ++ b) = count_plus a + count_plus b.
Proof.
  induction a as [| [c |] a IH]; simpl; lia.
Qed.

Lemma count_plus_ticks n : count_plus (ticks n) = 0.
Proof. induction n as [| n IH]; simpl; [reflexivity | exact IH]. Qed.

Lemma count_plus_nonneg (evs : list input) : 0 <= count_plus evs.
Proof.
  induction evs as [| [c |] evs IH]; simpl; [lia | | lia].
  destruct (c =? c_plus); lia.
Qed.

(** Fewer pluses than the detector still needs never arm it, whatever the
    ticks and other bytes between them. *)
Lemma always_unarmed (m : bool) (evs : list input) s :
  count_plus evs < pluses_to_arm s ->
  at_mode_active s = m ->
  always (fun s' => at_plus_state s' <> ATP_WAIT_FOR_ENABLE /\
                    at_mode_active s' = m) evs s.
Proof.
  revert s. induction evs as [| e evs IH]; intros s Hlt Hm.
  - simpl in *. split; [| exact I]. split; [| exact Hm].
    apply pluses_to_arm_pos. lia.
  - pose proof (count_plus_nonneg evs) as Hnn.
    assert (Hpos : 0 < pluses_to_arm s).
    { pose proof (count_plus_nonneg (e :: evs)). lia. }
    split; [split; [apply pluses_to_arm_pos, Hpos | exact Hm] |].
    destruct e as [c |].
    + exists (at_plus_detector c s). split; [reflexivity |].
      destruct (detector_keeps_distance c s) as [Hm' Hd].
      apply IH; [| congruence]. simpl in Hlt. lia.
    + destruct (timer_keeps_distance s Hpos) as (s' & Ht & Hm' & Hd).
      exists s'. split; [exact Ht |].
      apply IH; [| congruence]. simpl in Hlt. lia.
Qed.

Lemma always_app (P : at_state -> Prop) (a b : list input) s s1 :
  always P a s -> run a s = Ok tt s1 -> always P b s1 ->
  always P (a ++ b) s.
Proof.
  revert s. induction a as [| e a IH]; intros s Ha Hr Hb.
  - simpl in Hr. injection Hr as <-. exact Hb.
  - destruct Ha as [HP (s' & He & Ha)].
    rewrite (run_cons e a s s' He) in Hr.
    split; [exact HP |]. exists s'. split; [exact He |].
    apply IH; assumption.
Qed.

(** Three pluses right after another byte, less than the idle second
    later. *)
Lemma plus_after_data_never_arms c s (k0 k1 k2 n : nat) :
  c <> c_plus ->
  (k0 < 100)%nat ->
  always (fun s' => at_plus_state s' <> ATP_WAIT_FOR_ENABLE /\
                    at_mode_active s' = at_mode_active s)
    (ticks k0 ++ Byte c_plus :: ticks k1 ++ Byte c_plus ::
     ticks k2 ++ Byte c_plus :: ticks n)
    (at_plus_detector c s).
Proof.
  intros Hc Hk0. rewrite (detector_not_plus _ _ Hc).
  set (s1 := set_at_plus_counter 100 (set_at_plus_state 0 s)).
  assert (Hrun : run (ticks k0) s1 =
                 Ok tt (set_at_plus_counter (100 - Z.of_nat k0) s1)).
  { apply (run_ticks_idle_short k0 s1); [reflexivity | simpl; lia]. }
  eapply always_app; [| exact Hrun |].
  - apply always_unarmed; [| reflexivity].
    rewrite count_plus_ticks. reflexivity.
  - set (s2 := set_at_plus_counter (100 - Z.of_nat k0) s1).
    split; [split; [simpl; discriminate | reflexivity] |].
    exists (at_plus_detector c_plus s2). split; [reflexivity |].
    apply always_unarmed; [| reflexivity].
    rewrite count_plus_app, count_plus_ticks. simpl.
    rewrite count_plus_app, count_plus_ticks. simpl.
    rewrite count_plus_ticks. reflexivity.
Qed.

(** C1, as the code has it: from an idle detector whose counter is running
    (as after any byte other than ['+']), an idle second, three pluses
    however spaced and another idle second set [at_mode_active], return
    the detector to idle and leave the ready line "AT" of length 2; three
    pluses that start less than an idle second after another byte never
    arm the detector nor change [at_mode_active], however long one waits. *)
Theorem escape_sequence_needs_leading_idle_second
    s s0 c (n1 g1 g2 n2 k0 k1 k2 n : nat) :
  at_plus_state s = ATP_WAIT_FOR_IDLE ->
  1 <= at_plus_counter s <= ATP_COUNT_1S ->
  (3 <= length (at_cmd s))%nat ->
  (100 <= n1)%nat -> (100 <= n2)%nat ->
  c <> c_plus -> (k0 < 100)%nat ->
  (exists s',
     run (ticks n1 ++ Byte c_plus :: ticks g1 ++ Byte c_plus ::
          ticks g2 ++ Byte c_plus :: ticks n2) s = Ok tt s' /\
     at_mode_active s' = true /\
     at_plus_state s' = ATP_WAIT_FOR_IDLE /\
     at_cmd_ready s' = true /\
     at_cmd_len s' = 2 /\
     take 3 (at_cmd s') = [c_A; c_T; c_NUL]) /\
  always (fun s' => at_plus_state s' <> ATP_WAIT_FOR_ENABLE /\
                    at_mode_active s' = at_mode_active s0)
    (ticks k0 ++ Byte c_plus :: ticks k1 ++ Byte c_plus ::
     ticks k2 ++ Byte c_plus :: ticks n)
    (at_plus_detector c s0).
Proof.
  intros Hst Hcnt Hlen Hn1 Hn2 Hc Hk0. split.
  - apply escape_sequence_enters; assumption.
  - apply plus_after_data_never_arms; assumption.
Qed.

(** ** The numeric lexer *)

Lemma set_idx_same s : set_idx (idx s) s = s.
Proof. destruct s; reflexivity. Qed.

Lemma digits_prefix_Forall (l : list Z) :
  Forall (fun d => isdigit d = true) (digits_prefix l).
Proof.
  induction l as [| c l IH]; simpl; [constructor |].
  destruct (isdigit c) eqn:E; constructor; assumption.
Qed.

Lemma at_parse_loop_eq (fuel : nat) (reg : Z) s :
  0 <= idx s ->
  (length (at_cmd s) <= 256)%nat ->
  (Z.to_nat (idx s) + length (digit_run s) < length (at_cmd s))%nat ->
  (length (digit_run s) < fuel)%nat ->
  at_parse_loop fuel reg s =
    Ok (accumulate reg (digit_run s))
       (set_idx (idx s + Z.of_nat (length (digit_run s))) s).
Proof.
  revert reg s. induction fuel as [| fuel IH]; intros reg s Hi Hbuf Hend Hfuel;
    [lia |].
  assert (Hin : (Z.to_nat (idx s) < length (at_cmd s))%nat) by lia.
  destruct (lookup_lt_is_Some_2 _ _ Hin) as [c Hc].
  pose proof (drop_S _ _ _ Hc) as Hdrop.
  unfold digit_run in *. rewrite Hdrop in *. simpl in Hend, Hfuel |- *.
  rewrite bind_gets, (bind_load _ _ _ _ Hc).
  destruct (isdigit c) eqn:Hd; simpl in Hend, Hfuel |- *.
  - rewrite bind_modify.
    assert (Hu : u8 (idx s + 1) = idx s + 1) by (apply u8_small; lia).
    rewrite Hu.
    assert (Hnat : Z.to_nat (idx s + 1) = S (Z.to_nat (idx s))) by lia.
    rewrite IH; fields; rewrite ?Hnat; try lia.
    unfold accumulate. simpl. f_equal.
    unfold set_idx; fields. f_equal. lia.
  - rewrite Z.add_0_r, set_idx_same. reflexivity.
Qed.

Lemma u32_step (a b d : Z) : u32 a = u32 b -> u32 (a * 10 + d) = u32 (b * 10 + d).
Proof.
  unfold u32. intros Hab.
  rewrite (Z.add_mod (a * 10)), (Z.add_mod (b * 10)) by lia.
  rewrite (Z.mul_mod a), (Z.mul_mod b), Hab by lia. reflexivity.
Qed.

Lemma u32_idem (a : Z) : u32 (u32 a) = u32 a.
Proof. unfold u32. apply Z.mod_mod. lia. Qed.

Lemma accumulate_mod (ds : list Z) (a b : Z) :
  u32 a = u32 b ->
  u32 (accumulate a ds) = u32 (fold_left (fun acc d => acc * 10 + (d - c_0)) ds b).
Proof.
  revert a b. induction ds as [| d ds IH]; intros a b Hab; simpl.
  - exact Hab.
  - apply IH. rewrite u32_idem. apply u32_step, Hab.
Qed.

Lemma accumulate_in_range (ds : list Z) (a : Z) :
  u32 a = a -> u32 (accumulate a ds) = accumulate a ds.
Proof.
  revert a. induction ds as [| d ds IH]; intros a Ha; simpl.
  - exact Ha.
  - apply IH, u32_idem.
Qed.

Lemma accumulate_decimal (ds : list Z) :
  accumulate 0 ds = decimal ds mod 2 ^ 32.
Proof.
  rewrite <- (accumulate_in_range ds 0) by reflexivity.
  apply (accumulate_mod ds 0 0). reflexivity.
Qed.

(** C5: when the digits that start at the cursor end inside the buffer,
    [at_parse_number] returns their decimal value modulo 2^32 and moves the
    cursor past exactly these digits, onto the first character that is not
    a digit; on a character that is not a digit it returns 0 and leaves the
    cursor where it is. *)
Theorem at_parse_number_reads_decimal s :
  0 <= idx s ->
  (length (at_cmd s) <= 256)%nat ->
  (Z.to_nat (idx s) + length (digit_run s) < length (at_cmd s))%nat ->
  at_parse_number s =
    Ok (decimal (digit_run s) mod 2 ^ 32)
       (set_idx (idx s + Z.of_nat (length (digit_run s))) s) /\
  (forall j, (j < length (digit_run s))%nat ->
     exists d, at_cmd s !! (Z.to_nat (idx s) + j)%nat = Some d /\
               isdigit d = true) /\
  (exists c, at_cmd s !! (Z.to_nat (idx s) + length (digit_run s))%nat = Some c /\
             isdigit c = false) /\
  (forall c, at_cmd s !! Z.to_nat (idx s) = Some c -> isdigit c = false ->
     at_parse_number s = Ok 0 s).
Proof.
  intros Hi Hbuf Hend.
  assert (Hmain : at_parse_number s =
            Ok (decimal (digit_run s) mod 2 ^ 32)
               (set_idx (idx s + Z.of_nat (length (digit_run s))) s)).
  { unfold at_parse_number. rewrite at_parse_loop_eq by lia.
    rewrite accumulate_decimal. reflexivity. }
  split; [exact Hmain |].
  assert (Hsplit : forall l : list Z,
            (length (digits_prefix l) < length l)%nat ->
            (forall j, (j < length (digits_prefix l))%nat ->
               exists d, l !! j = Some d /\ isdigit d = true) /\
            (exists c, l !! length (digits_prefix l) = Some c /\
                       isdigit c = false)).
  { induction l as [| x l IH]; simpl; [lia |].
    destruct (isdigit x) eqn:Hx; simpl; intros Hl.
    - destruct (IH ltac:(lia)) as [Hd Hn]. split; [| exact Hn].
      intros [| j] Hj; [eauto |]. apply Hd. lia.
    - split; [intros j Hj; lia | eauto]. }
  unfold digit_run in *.
  destruct (Hsplit (drop (Z.to_nat (idx s)) (at_cmd s))) as [Hd Hn].
  { rewrite length_drop. lia. }
  split; [| split].
  - intros j Hj. destruct (Hd j Hj) as (d & Hl & Hdig).
    rewrite lookup_drop in Hl. eauto.
  - destruct Hn as (c & Hl & Hdig). rewrite lookup_drop in Hl. eauto.
  - intros c Hc Hdig. rewrite Hmain.
    rewrite (drop_S _ _ _ Hc). simpl. rewrite Hdig. simpl.
    rewrite Z.add_0_r, set_idx_same. reflexivity.
Qed.

(** ** The handlers return *)

Section Handlers.
Hypothesis Hpf : platform_ok.

Lemma load_in_range (i : Z) s :
  Z.of_nat (length (at_cmd s)) = AT_CMD_MAXLEN + 1 ->
  0 <= i <= AT_CMD_MAXLEN ->
  exists v, at_cmd s !! Z.to_nat i = Some v.
Proof.
  intros Hlen Hi. apply lookup_lt_is_Some_2. lia.
Qed.

Lemma digits_prefix_stops (l : list Z) (k : nat) (c : Z) :
  l !! k = Some c -> isdigit c = false -> (length (digits_prefix l) <= k)%nat.
Proof.
  revert k. induction l as [| x l IH]; intros k Hk Hc; simpl; [lia |].
  destruct k as [| k]; simpl in Hk.
  - injection Hk as ->. rewrite Hc. simpl. lia.
  - destruct (isdigit x); simpl; [| lia].
    specialize (IH k Hk Hc). lia.
Qed.

Lemma at_parse_number_returns s :
  Z.of_nat (length (at_cmd s)) = AT_CMD_MAXLEN + 1 ->
  at_cmd s !! Z.to_nat AT_CMD_MAXLEN = Some c_NUL ->
  0 <= idx s <= AT_CMD_MAXLEN ->
  exists v j,
    at_parse_number s = Ok v (set_idx j s) /\
    idx s <= j <= AT_CMD_MAXLEN /\
    v = decimal (digit_run s) mod 2 ^ 32 /\
    j = idx s + Z.of_nat (length (digit_run s)).
Proof.
  intros Hlen Hlast Hi. destruct Hpf as (Hmax & _).
  assert (Hrun : (length (digit_run s) <= Z.to_nat AT_CMD_MAXLEN - Z.to_nat (idx s))%nat).
  { unfold digit_run. apply (digits_prefix_stops _ _ c_NUL); [| reflexivity].
    rewrite lookup_drop. rewrite <- Hlast. f_equal. lia. }
  exists (decimal (digit_run s) mod 2 ^ 32),
         (idx s + Z.of_nat (length (digit_run s))).
  split; [| split; [lia | split; reflexivity]].
  unfold at_parse_number. rewrite at_parse_loop_eq by lia.
  rewrite accumulate_decimal. reflexivity.
Qed.

Lemma has_prefix_returns (a b : Z) s :
  Z.of_nat (length (at_cmd s)) = AT_CMD_MAXLEN + 1 ->
  exists r, has_prefix a b s = Ok r s /\
    (r = true <->
     2 <= at_cmd_len s /\ at_cmd s !! 0%nat = Some a /\ at_cmd s !! 1%nat = Some b).
Proof.
  intros Hlen. destruct Hpf as (Hmax & _).
  destruct (load_in_range 0 s Hlen ltac:(lia)) as [c0 H0].
  destruct (load_in_range 1 s Hlen ltac:(lia)) as [c1 H1].
  unfold has_prefix. msteps.
  change (Z.to_nat 0) with 0%nat in H0. change (Z.to_nat 1) with 1%nat in H1.
  destruct (Z.leb_spec 2 (at_cmd_len s)) as [Hn | Hn].
  - rewrite (bind_load 0 c0) by exact H0.
    destruct (Z.eqb_spec c0 a) as [-> | Hc0].
    + rewrite (bind_load 1 c1) by exact H1. eexists; split; [reflexivity |].
      rewrite H0, H1. destruct (Z.eqb_spec c1 b) as [-> | Hc1]; split; auto.
      * discriminate.
      * intros (_ & _ & [=]). contradiction.
    + eexists; split; [reflexivity |]. rewrite H0. split; [discriminate |].
      intros (_ & [=] & _). contradiction.
  - eexists; split; [reflexivity |]. split; [discriminate | lia].
Qed.

Lemma at_i_dump_returns (fuel : nat) (id : Z) s :
  0 <= id <= 255 -> 256 - id <= Z.of_nat fuel ->
  returns (at_i_dump fuel id) s.
Proof.
  destruct Hpf as (_ & Hparam & _).
  revert id s. induction fuel as [| fuel IH]; intros id s Hid Hfuel; [lia |].
  unfold returns. simpl. destruct (Z.ltb_spec id PARAM_MAX) as [Hlt | Hge].
  - msteps. rewrite u8_small by lia.
    destruct (IH (id + 1) (called (param_print_call id) s)) as (s' & Hr & Hb);
      [lia | lia |].
    exists s'. split; [exact Hr | exact Hb].
  - exists s. split; reflexivity.
Qed.

Ltac returned := eexists; split; [reflexivity | fields; reflexivity].

Lemma at_i_returns s :
  Z.of_nat (length (at_cmd s)) = AT_CMD_MAXLEN + 1 -> returns at_i s.
Proof.
  intros Hlen. pose proof Hpf as (Hmax & _).
  destruct (load_in_range 3 s Hlen ltac:(lia)) as [c Hc].
  unfold returns, at_i. msteps. rewrite (bind_load 3 c) by exact Hc.
  destruct ((c =? 0) || (c =? 48)); [returned |].
  destruct (c =? 49); [returned |].
  destruct (c =? 50); [returned |].
  destruct (c =? 51); [msteps; returned |].
  destruct (c =? 52); [msteps; returned |].
  destruct (c =? 53); [apply at_i_dump_returns; lia |].
  destruct (c =? 54); [msteps; returned |].
  destruct (c =? 55); [msteps; returned |].
  destruct (c =? 56); [| msteps; returned].
  destruct (nodeId (env s) =? 0); msteps; returned.
Qed.


Lemma not_last_cell (j c : Z) s :
  at_cmd s !! Z.to_nat AT_CMD_MAXLEN = Some c_NUL ->
  at_cmd s !! Z.to_nat j = Some c ->
  c <> c_NUL ->
  0 <= j <= AT_CMD_MAXLEN ->
  j + 1 <= AT_CMD_MAXLEN.
Proof.
  intros Hlast Hj Hc Hr.
  destruct (Z.eq_dec j AT_CMD_MAXLEN) as [-> | Hne]; [| lia].
  rewrite Hlast in Hj. injection Hj as <-. contradiction.
Qed.

Lemma at_s_returns s :
  Z.of_nat (length (at_cmd s)) = AT_CMD_MAXLEN + 1 ->
  at_cmd s !! Z.to_nat AT_CMD_MAXLEN = Some c_NUL ->
  returns at_s s.
Proof.
  intros Hlen Hlast. pose proof Hpf as (Hmax & _).
  unfold returns, at_s. msteps.
  destruct (at_parse_number_returns (set_idx 3 s)) as (v & j & Hv & Hj & _);
    [exact Hlen | exact Hlast | simpl; lia |].
  rewrite (bind_ok _ _ _ _ _ Hv). fields.
  destruct (PARAM_MAX <=? u8 v); [msteps; returned |].
  msteps.
  destruct (load_in_range j s Hlen ltac:(lia)) as [c Hc].
  rewrite (bind_load j c) by exact Hc. msteps.
  destruct (c =? 63); [msteps; returned |].
  destruct (Z.eqb_spec c 61) as [-> | _]; [| msteps; returned].
  destruct (0 <? u8 v); [| msteps; returned].
  msteps.
  pose proof (not_last_cell j 61 s Hlast Hc ltac:(discriminate) ltac:(lia)) as Hj1.
  rewrite (u8_small (j + 1)) by lia.
  destruct (at_parse_number_returns (set_idx (j + 1) s)) as (v2 & j2 & Hv2 & _);
    [exact Hlen | exact Hlast | simpl; lia |].
  rewrite (bind_ok _ _ _ _ _ Hv2). msteps.
  destruct (negb _); msteps; returned.
Qed.

Lemma strcmp_eq_returns (lit : list Z) (i : Z) s :
  Z.of_nat (length (at_cmd s)) = AT_CMD_MAXLEN + 1 ->
  at_cmd s !! Z.to_nat AT_CMD_MAXLEN = Some c_NUL ->
  Forall (fun l => l <> c_NUL) lit ->
  0 <= i <= AT_CMD_MAXLEN ->
  exists r, strcmp_eq lit i s = Ok r s.
Proof.
  intros Hlen Hlast Hlit. revert i.
  induction Hlit as [| l lit Hl _ IH]; intros i Hi; simpl;
    destruct (load_in_range i s Hlen Hi) as [c Hc];
    rewrite (bind_load i c) by exact Hc.
  - eexists; reflexivity.
  - destruct (Z.eqb_spec c l) as [-> | _]; [| eexists; reflexivity].
    apply IH.
    pose proof (not_last_cell i l s Hlast Hc Hl Hi). lia.
Qed.

Lemma at_ampersand_outcome s :
  Z.of_nat (length (at_cmd s)) = AT_CMD_MAXLEN + 1 ->
  at_cmd s !! Z.to_nat AT_CMD_MAXLEN = Some c_NUL ->
  match at_ampersand s with
  | Ok _ s' => at_cmd s' = at_cmd s
  | Halt h _ => h = ForcedFault /\ at_cmd s !! 3%nat = Some c_U
  | _ => False
  end.
Proof.
  intros Hlen Hlast. pose proof Hpf as (Hmax & _).
  destruct (load_in_range 3 s Hlen ltac:(lia)) as [c Hc].
  unfold at_ampersand. rewrite (bind_load 3 c) by exact Hc.
  destruct (c =? 70); [msteps; reflexivity |].
  destruct (c =? 87); [msteps; reflexivity |].
  destruct (Z.eqb_spec c 85) as [-> | _].
  { destruct (strcmp_eq_returns lit_PDATE 4 s Hlen Hlast) as [r Hr];
      [repeat constructor; discriminate | lia |].
    rewrite (bind_ok _ _ _ _ _ Hr).
    destruct r; [split; [reflexivity | exact Hc] | msteps; reflexivity]. }
  destruct (c =? 84); [| msteps; reflexivity].
  destruct (strcmp_eq_returns [] 4 s Hlen Hlast) as [r0 Hr0];
    [constructor | lia |].
  rewrite (bind_ok _ _ _ _ _ Hr0). destruct r0; [reflexivity |].
  destruct (strcmp_eq_returns lit_eqRSSI 4 s Hlen Hlast) as [r1 Hr1];
    [repeat constructor; discriminate | lia |].
  rewrite (bind_ok _ _ _ _ _ Hr1). destruct r1; [reflexivity |].
  destruct (strcmp_eq_returns lit_eqTDM 4 s Hlen Hlast) as [r2 Hr2];
    [repeat constructor; discriminate | lia |].
  rewrite (bind_ok _ _ _ _ _ Hr2). destruct r2; [reflexivity |].
  msteps; reflexivity.
Qed.

Lemma at_p_dump_returns (fuel : nat) (pinId : Z) s :
  0 <= pinId <= 255 -> 256 - pinId <= Z.of_nat fuel ->
  returns (at_p_dump fuel pinId) s.
Proof.
  destruct Hpf as (_ & _ & Hpin).
  revert pinId s. induction fuel as [| fuel IH]; intros pinId s Hid Hfuel; [lia |].
  unfold returns. simpl. destruct (Z.ltb_spec pinId PIN_MAX) as [Hlt | Hge].
  - msteps. rewrite u8_small by lia.
    match goal with
    | |- context [bind (if ?b then _ else _) _ ?s1] =>
        assert (Hio : exists s2, forall k : unit -> M unit,
                  bind (if b then emit PrintOutput else emit PrintInput) k s1
                  = k tt s2 /\ at_cmd s2 = at_cmd s)
          by (destruct b; eexists; intros k; split; reflexivity)
    end.
    destruct Hio as (s2 & Hio). rewrite (proj1 (Hio _)). msteps.
    match goal with
    | |- exists s', at_p_dump fuel (pinId + 1) ?s3 = _ /\ _ =>
        destruct (IH (pinId + 1) s3) as (s' & Hr & Hb); [lia | lia |];
        exists s'; split; [exact Hr |]; rewrite Hb; fields;
        exact (proj2 (Hio (fun _ => ret tt)))
    end.
  - exists s. split; reflexivity.
Qed.

Lemma at_p_returns s :
  Z.of_nat (length (at_cmd s)) = AT_CMD_MAXLEN + 1 -> returns at_p s.
Proof.
  intros Hlen. pose proof Hpf as (Hmax & _).
  destruct (load_in_range 3 s Hlen ltac:(lia)) as [c3 H3].
  destruct (load_in_range 4 s Hlen ltac:(lia)) as [c4 H4].
  destruct (load_in_range 5 s Hlen ltac:(lia)) as [c5 H5].
  destruct (load_in_range 7 s Hlen ltac:(lia)) as [c7 H7].
  unfold returns, at_p. rewrite (bind_load 3 c3) by exact H3.
  destruct (c3 =? 80); [apply at_p_dump_returns; lia |].
  rewrite (bind_load 4 c4) by exact H4.
  destruct (negb (c4 =? 61)).
  { msteps; returned. }
  rewrite bind_bind, (bind_load 5 c5) by exact H5. msteps.
  destruct (negb (isdigit c5)); [msteps; returned |].
  rewrite (bind_load 5 c5) by exact H5.
  rewrite (bind_load 3 c3) by exact H3.
  destruct (c3 =? 79); [msteps; returned |].
  destruct (c3 =? 73); [msteps; returned |].
  destruct (c3 =? 82).
  { msteps. destruct (Bool.eqb _ _); msteps; returned. }
  destruct (c3 =? 67); [| msteps; returned].
  rewrite (bind_load 7 c7) by exact H7.
  destruct (negb (isdigit c7)); [msteps; returned |].
  rewrite bind_bind, (bind_load 7 c7) by exact H7. msteps.
  destruct (_ =? 0); msteps; returned.
Qed.

Lemma at_plus_returns s :
  Z.of_nat (length (at_cmd s)) = AT_CMD_MAXLEN + 1 ->
  at_cmd s !! Z.to_nat AT_CMD_MAXLEN = Some c_NUL ->
  returns at_plus s.
Proof.
  intros Hlen Hlast. pose proof Hpf as (Hmax & _).
  unfold returns, at_plus.
  destruct BOARD_rfd900a; [| msteps; returned].
  msteps.
  destruct (at_parse_number_returns (set_idx 4 s)) as (v & j & Hv & Hj & _);
    [exact Hlen | exact Hlast | simpl; lia |].
  rewrite (bind_ok _ _ _ _ _ Hv). fields.
  destruct (load_in_range 3 s Hlen ltac:(lia)) as [c3 H3].
  destruct (load_in_range 4 s Hlen ltac:(lia)) as [c4 H4].
  rewrite (bind_load 3 c3) by exact H3.
  destruct (c3 =? 80).
  { rewrite (bind_load 4 c4) by exact H4.
    destruct (negb (c4 =? 61)); [msteps; returned |].
    msteps.
    destruct (at_parse_number_returns (set_idx 5 s)) as (v2 & j2 & Hv2 & _);
      [exact Hlen | exact Hlast | simpl; lia |].
    rewrite (bind_ok _ _ _ _ _ Hv2). msteps. returned. }
  destruct (c3 =? 67).
  { msteps.
    destruct (load_in_range j s Hlen ltac:(lia)) as [c Hc].
    rewrite (bind_load j c) by exact Hc.
    destruct (c =? 63); [msteps; returned |].
    destruct (Z.eqb_spec c 61) as [-> | _]; [| msteps; returned].
    msteps.
    pose proof (not_last_cell j 61 s Hlast Hc ltac:(discriminate) ltac:(lia)).
    rewrite (u8_small (j + 1)) by lia.
    destruct (at_parse_number_returns (set_idx (j + 1) s)) as (v2 & j2 & Hv2 & _);
      [exact Hlen | exact Hlast | simpl; lia |].
    rewrite (bind_ok _ _ _ _ _ Hv2). msteps.
    destruct (negb _); msteps; returned. }
  destruct (c3 =? 76); [| msteps; returned].
  msteps. destruct (negb _); msteps; returned.
Qed.


(** ** The dispatcher *)

Lemma rt_scan_returns (fuel : nat) s :
  Z.of_nat (length (at_cmd s)) = AT_CMD_MAXLEN + 1 ->
  0 <= at_cmd_len s <= AT_CMD_MAXLEN ->
  0 <= idx s <= AT_CMD_MAXLEN ->
  Z.max 0 (at_cmd_len s - idx s) < Z.of_nat fuel ->
  exists j,
    rt_scan fuel s = Ok tt (set_idx j s) /\
    idx s <= j <= Z.max (idx s) (at_cmd_len s) /\
    (at_cmd_len s <= j \/ at_cmd s !! Z.to_nat j = Some c_comma) /\
    (forall i, idx s <= i < j -> at_cmd s !! Z.to_nat i <> Some c_comma).
Proof.
  pose proof Hpf as (Hmax & _).
  revert s. induction fuel as [| fuel IH]; intros s Hlen Hn Hi Hfuel.
  - lia.
  - simpl. msteps.
    destruct (Z.leb_spec (at_cmd_len s) (idx s)) as [Hstop | Hgo].
    + msteps. exists (idx s). rewrite set_idx_same.
      split; [reflexivity | split; [lia | split; [lia | intros; lia]]].
    + destruct (load_in_range (idx s) s Hlen ltac:(lia)) as [c Hc].
      rewrite bind_bind, (bind_load (idx s) c) by exact Hc. msteps.
      destruct (Z.eqb_spec c 44) as [-> | Hne].
      * exists (idx s). rewrite set_idx_same.
        split; [reflexivity | split; [lia | split; [auto | intros; lia]]].
      * msteps. rewrite u8_small by lia.
        destruct (IH (set_idx (idx s + 1) s)) as (j & Hr & Hj & Hend & Hno);
          fields; try lia.
        exists j. split; [exact Hr |]. split; [lia |]. split; [exact Hend |].
        intros i Hir.
        destruct (Z.eq_dec i (idx s)) as [-> | Hii].
        -- rewrite Hc. intros [=]. contradiction.
        -- apply Hno. lia.
Qed.

Lemma at_command_rt s :
  buffer_inv s ->
  at_cmd_ready s = true ->
  has_prefix c_R c_T s = Ok true s ->
  exists j s',
    at_command s = Ok tt s' /\ unlocked s' /\
    3 <= j <= Z.max 3 (at_cmd_len s) /\
    (at_cmd_len s <= j \/ at_cmd s !! Z.to_nat j = Some c_comma) /\
    (forall i, 3 <= i < j -> at_cmd s !! Z.to_nat i <> Some c_comma) /\
    if decide (at_cmd s !! Z.to_nat j = Some c_comma)
    then at_cmd s' = <[Z.to_nat j := c_NUL]> (at_cmd s) /\
         out s' = out s ++ [Called (tdm_remote_at_call (rt_destination j s)
                                      (<[Z.to_nat j := c_NUL]> (at_cmd s)))]
    else at_cmd s' = at_cmd s /\
         out s' = out s ++ [Called (tdm_remote_at_call 65535 (at_cmd s))].
Proof.
  intros (Hlen & Hlast & Hn) Hready Hrt. pose proof Hpf as (Hmax & _).
  unfold at_command. msteps. rewrite Hready, (bind_ok _ _ _ _ _ Hrt). msteps.
  destruct (rt_scan_returns 256 (set_idx 3 s)) as (j & Hscan & Hj & Hend & Hno);
    fields; try lia.
  rewrite (bind_ok _ _ _ _ _ Hscan). msteps.
  destruct (load_in_range j s Hlen ltac:(lia)) as [c Hc].
  rewrite (bind_load j c) by (fields; exact Hc).
  exists j.
  destruct (Z.eqb_spec c 44) as [-> | Hne].
  - (* a comma in cell j *)
    pose proof (not_last_cell j 44 s Hlast Hc ltac:(discriminate) ltac:(lia)) as Hj1.
    assert (Hjn : (Z.to_nat j < length (at_cmd s))%nat) by lia.
    rewrite bind_bind, bind_store by (fields; exact Hjn). msteps.
    rewrite (u8_small (j + 1)) by lia.
    set (buf := <[Z.to_nat j := 0]> (at_cmd s)).
    assert (Hlen' : Z.of_nat (length buf) = AT_CMD_MAXLEN + 1).
    { unfold buf. rewrite length_insert. exact Hlen. }
    assert (Hlast' : buf !! Z.to_nat AT_CMD_MAXLEN = Some 0).
    { unfold buf. rewrite list_lookup_insert_ne by lia. exact Hlast. }
    match goal with
    | |- context [bind at_parse_number _ ?s1] =>
        destruct (at_parse_number_returns s1) as (v & j2 & Hv & _ & Hval & _);
          [exact Hlen' | exact Hlast' | simpl; lia |];
        rewrite (bind_ok _ _ _ _ _ Hv)
    end.
    msteps.
    eexists. split; [reflexivity |].
    split; [unfold unlocked, buffer_inv; fields; intuition lia |].
    do 3 (split; [assumption |]).
    destruct (decide _) as [_ | Hn']; [| contradiction].
    fields. split; [reflexivity |].
    do 4 f_equal. rewrite Hval. unfold rt_destination, digit_run. fields.
    replace (Z.to_nat (j + 1)) with (S (Z.to_nat j)) by lia.
    unfold buf. rewrite drop_insert_lt by lia. reflexivity.
  - (* no comma there *)
    msteps. eexists. split; [reflexivity |].
    split; [unfold unlocked, buffer_inv; fields; intuition lia |].
    do 3 (split; [assumption |]).
    destruct (decide _) as [Hy | _]; [| fields; auto].
    rewrite Hc in Hy. injection Hy as ->. contradiction.
Qed.

Lemma unlock_after (h : M unit) s :
  returns h s -> buffer_inv s ->
  exists s',
    bind h (fun _ => bind (modify (set_at_cmd_len 0))
                       (fun _ => modify (set_at_cmd_ready false))) s
    = Ok tt s' /\ unlocked s'.
Proof.
  intros (s' & Hr & Hb) (Hlen & Hlast & Hn). pose proof Hpf as (Hmax & _).
  rewrite (bind_ok _ _ _ _ _ Hr). msteps.
  eexists. split; [reflexivity |].
  unfold unlocked, buffer_inv. fields. rewrite Hb. intuition lia.
Qed.

Lemma at_command_outcome s :
  buffer_inv s ->
  at_cmd_ready s = true ->
  match at_command s with
  | Ok _ s' => unlocked s'
  | Halt h _ =>
      has_prefix c_A c_T s = Ok true s /\
      (h = SoftwareReset /\ at_cmd s !! 2%nat = Some c_Z \/
       h = ForcedFault /\ at_cmd s !! 2%nat = Some c_amp /\
       at_cmd s !! 3%nat = Some c_U)
  | _ => False
  end.
Proof.
  intros Hinv Hready. pose proof Hinv as (Hlen & Hlast & Hn).
  pose proof Hpf as (Hmax & _).
  destruct (has_prefix_returns c_R c_T s Hlen) as (rt & Hrt & _).
  destruct rt.
  { destruct (at_command_rt s Hinv Hready Hrt) as (j & s' & Hc & Hu & _).
    rewrite Hc. exact Hu. }
  destruct (has_prefix_returns c_A c_T s Hlen) as (atp & Hat & _).
  unfold at_command. msteps.
  rewrite Hready, (bind_ok _ _ _ _ _ Hrt), (bind_ok _ _ _ _ _ Hat).
  destruct atp.
  2:{ msteps. unfold modify, unlocked, buffer_inv. fields. intuition lia. }
  destruct (load_in_range 2 s Hlen ltac:(lia)) as [c Hc].
  rewrite bind_bind, (bind_load 2 c) by exact Hc.
  change (Z.to_nat 2) with 2%nat in Hc.
  assert (Hh : forall h : M unit, returns h s ->
            match bind h (fun _ => bind (modify (set_at_cmd_len 0))
                             (fun _ => modify (set_at_cmd_ready false))) s with
            | Ok _ s' => unlocked s'
            | Halt h _ =>
                has_prefix c_A c_T s = Ok true s /\
                (h = SoftwareReset /\ at_cmd s !! 2%nat = Some c_Z \/
                 h = ForcedFault /\ at_cmd s !! 2%nat = Some c_amp /\
                 at_cmd s !! 3%nat = Some c_U)
            | _ => False
            end).
  { intros h Hret. destruct (unlock_after h s Hret Hinv) as (s' & -> & Hu).
    exact Hu. }
  destruct (c =? 0).
  { apply (Hh at_ok). unfold returns. msteps. returned. }
  destruct (Z.eqb_spec c 38) as [-> | _].
  { pose proof (at_ampersand_outcome s Hlen Hlast) as Ho.
    unfold bind at 1. destruct (at_ampersand s) as [[] s' | | h s' |];
      try contradiction.
    - msteps. unfold modify, unlocked, buffer_inv. fields. rewrite Ho.
      intuition lia.
    - destruct Ho as [-> HU]. split; [first [reflexivity | exact Hat] |].
      right. auto. }
  destruct (c =? 43); [apply (Hh at_plus), at_plus_returns; assumption |].
  destruct (c =? 73); [apply (Hh at_i), at_i_returns; assumption |].
  destruct (c =? 80); [apply (Hh at_p), at_p_returns; assumption |].
  destruct (c =? 79).
  { match goal with |- context [bind ?h _ s] => apply (Hh h) end.
    unfold returns. destruct WATCH_DOG_ENABLE; msteps; returned. }
  destruct (c =? 83); [apply (Hh at_s), at_s_returns; assumption |].
  destruct (Z.eqb_spec c 90) as [-> | _].
  { msteps. split; [first [reflexivity | exact Hat] |]. left. auto. }
  apply (Hh at_error). unfold returns. msteps. returned.
Qed.


(** ** The buffer invariant *)

Lemma at_input_keeps_inv c s :
  buffer_inv s -> exists s', at_input c s = Ok tt s' /\ buffer_inv s'.
Proof.
  intros (Hlen & Hlast & Hn). pose proof Hpf as (Hmax & _).
  unfold at_input.
  destruct (c =? 13).
  { msteps.
    rewrite bind_store by (fields; lia). msteps.
    eexists. split; [reflexivity |]. unfold buffer_inv. fields.
    rewrite length_insert. split; [exact Hlen |]. split; [| exact Hn].
    destruct (Z.eq_dec (at_cmd_len s) AT_CMD_MAXLEN) as [-> | Hne].
    - apply list_lookup_insert_eq. lia.
    - rewrite list_lookup_insert_ne by lia. exact Hlast. }
  destruct ((c =? 8) || (c =? 127)).
  { msteps. destruct (Z.ltb_spec 0 (at_cmd_len s)).
    - msteps. eexists. split; [reflexivity |]. unfold buffer_inv. fields.
      rewrite u8_small by lia. intuition lia.
    - eexists. split; [reflexivity |]. unfold buffer_inv. auto. }
  msteps. destruct (Z.ltb_spec (at_cmd_len s) AT_CMD_MAXLEN).
  - destruct (isprint c).
    + rewrite bind_store by (fields; lia). msteps.
      eexists. split; [reflexivity |]. unfold buffer_inv. fields.
      rewrite length_insert, (u8_small (at_cmd_len s + 1)) by lia.
      rewrite list_lookup_insert_ne by lia. intuition lia.
    + eexists. split; [reflexivity |]. unfold buffer_inv. auto.
  - msteps. eexists. split; [reflexivity |]. unfold buffer_inv. fields.
    intuition lia.
Qed.

Lemma at_timer_keeps_buffer_inv s :
  buffer_inv s -> exists s', at_timer s = Ok tt s' /\ buffer_inv s'.
Proof.
  intros (Hlen & Hlast & Hn). pose proof Hpf as (Hmax & _).
  unfold at_timer. msteps.
  destruct (0 <? at_plus_counter s);
    [| eexists; split; [reflexivity | unfold buffer_inv; auto]].
  msteps.
  destruct (u8 (at_plus_counter s - 1) =? 0);
    [| eexists; split; [reflexivity | unfold buffer_inv; fields; auto]].
  msteps.
  destruct (at_plus_state s =? 0);
    [eexists; split; [reflexivity | unfold buffer_inv; fields; auto] |].
  destruct (at_plus_state s =? 4);
    [| eexists; split; [reflexivity | unfold buffer_inv; fields; auto]].
  destruct WATCH_DOG_ENABLE; msteps;
    (rewrite bind_store by (fields; lia); fields;
     rewrite bind_store by (fields; rewrite length_insert; lia); fields;
     rewrite bind_store by (fields; rewrite !length_insert; lia); msteps;
     eexists; split; [reflexivity |]; unfold buffer_inv; fields;
     rewrite !length_insert, !list_lookup_insert_ne by lia;
     intuition lia).
Qed.

End Handlers.

(** ** The pin commands *)

Lemma digit_pin c : isdigit c = true -> 0 <= u8 (c - c_0) < 10.
Proof.
  unfold isdigit. intros Hd.
  apply andb_prop in Hd as [Hlo Hhi].
  apply Z.leb_le in Hlo, Hhi. rewrite u8_small; lia.
Qed.

(** C8, as the code has it: for ATPO, ATPI, ATPR and ATPC the pin index
    is the character in cell 5, used only once cell 4 has been found to be
    [=] and cell 5 a decimal digit.  Without them no call is made at all;
    with them every pin I/O call of [at_p] is made on the pin that digit
    writes, which is from 0 to 9: ATPO and ATPI set its direction, ATPR
    gets its direction and, for an input, reads its analog value, ATPC
    with a digit in cell 7 sets its value.  [PIN_MAX] is not consulted on
    this path. *)
Theorem at_p_pin_is_one_digit (c3 c4 c5 c7 : Z) s :
  at_cmd s !! 3%nat = Some c3 ->
  at_cmd s !! 4%nat = Some c4 ->
  at_cmd s !! 5%nat = Some c5 ->
  at_cmd s !! 7%nat = Some c7 ->
  c3 <> c_P ->
  exists s' new,
    at_p s = Ok tt s' /\
    out s' = out s ++ new /\
    Forall (pin_below 10) new /\
    Forall (on_pin (c5 - c_0)) new /\
    (c4 <> c_eq \/ isdigit c5 = false -> calls_of new = []) /\
    (c4 = c_eq -> isdigit c5 = true ->
     0 <= c5 - c_0 <= 9 /\
     (c3 = c_O ->
      calls_of new = [pins_user_set_io_call (c5 - c_0) PIN_OUTPUT]) /\
     (c3 = c_I ->
      calls_of new = [pins_user_set_io_call (c5 - c_0) PIN_INPUT]) /\
     (c3 = c_R ->
      calls_of new = [pins_user_get_io_call (c5 - c_0)] \/
      calls_of new = [pins_user_get_io_call (c5 - c_0);
                      pins_user_get_adc_call (c5 - c_0)]) /\
     (c3 = c_C -> isdigit c7 = true ->
      calls_of new = [pins_user_set_value_call (c5 - c_0) (c7 - c_0)])).
Proof.
  intros H3 H4 H5 H7 HnP.
  unfold at_p. rewrite (bind_load 3 c3) by exact H3.
  rewrite (Zeqb_ne _ _ HnP).
  rewrite (bind_load 4 c4) by exact H4.
  destruct (Z.eqb_spec c4 61) as [E4 | N4]; simpl.
  2:{ msteps. exists (set_out (out s ++ [ReplyERROR (nodeId (env s))]) s),
        [ReplyERROR (nodeId (env s))].
      split; [reflexivity |]. split; [reflexivity |].
      split; [repeat constructor |]. split; [repeat constructor |].
      split; [reflexivity | intros E; contradiction]. }
  rewrite bind_bind, (bind_load 5 c5) by exact H5. msteps.
  destruct (isdigit c5) eqn:Hd; simpl.
  2:{ msteps. exists (set_out (out s ++ [ReplyERROR (nodeId (env s))]) s),
        [ReplyERROR (nodeId (env s))].
      split; [reflexivity |]. split; [reflexivity |].
      split; [repeat constructor |]. split; [repeat constructor |].
      split; [reflexivity | intros _ E; discriminate E]. }
  pose proof (digit_pin c5 Hd) as Hpin.
  assert (Hu : u8 (c5 - 48) = c5 - 48).
  { unfold isdigit in Hd. apply andb_prop in Hd as [Hlo Hhi].
    apply Z.leb_le in Hlo, Hhi. apply u8_small. lia. }
  rewrite Hu in Hpin.
  assert (Hno : c4 <> 61 \/ true = false -> forall cs : list call, cs = [])
    by (intros [N | N]; [contradiction | discriminate N]).
  rewrite (bind_load 5 c5) by exact H5.
  rewrite (bind_load 3 c3) by exact H3. rewrite ?Hu.
  destruct (Z.eqb_spec c3 79) as [EO | NO].
  { msteps. do 2 eexists. split; [reflexivity |].
    split; [fields; rewrite <- ?app_assoc; reflexivity |]. cbn [app].
    split; [repeat (apply Forall_cons; [simpl; first [exact I | lia] |]);
            apply Forall_nil |].
    split; [repeat (apply Forall_cons;
                    [simpl; first [exact I | reflexivity] |]);
            apply Forall_nil |].
    split; [intros N; apply (Hno N) |]. intros _ _.
    split; [lia |]. split; [intros _; reflexivity |].
    split; [intros E; lia |]. split; intros E; lia. }
  destruct (Z.eqb_spec c3 73) as [EI | NI].
  { msteps. do 2 eexists. split; [reflexivity |].
    split; [fields; rewrite <- ?app_assoc; reflexivity |]. cbn [app].
    split; [repeat (apply Forall_cons; [simpl; first [exact I | lia] |]);
            apply Forall_nil |].
    split; [repeat (apply Forall_cons;
                    [simpl; first [exact I | reflexivity] |]);
            apply Forall_nil |].
    split; [intros N; apply (Hno N) |]. intros _ _.
    split; [lia |]. split; [intros E; lia |].
    split; [intros _; reflexivity |]. split; intros E; lia. }
  destruct (Z.eqb_spec c3 82) as [ER | NR].
  { msteps. destruct (Bool.eqb _ _); msteps;
      (do 2 eexists; split; [reflexivity |];
       split; [fields; rewrite <- ?app_assoc; reflexivity |]; cbn [app];
       split; [repeat (apply Forall_cons; [simpl; first [exact I | lia] |]);
               apply Forall_nil |];
       split; [repeat (apply Forall_cons;
                       [simpl; first [exact I | reflexivity] |]);
               apply Forall_nil |];
       split; [intros N; apply (Hno N) |]; intros _ _;
       split; [lia |]; split; [intros E; lia |];
       split; [intros E; lia |]; split; [| intros E; lia]; intros _).
    - right. reflexivity.
    - left. reflexivity. }
  destruct (Z.eqb_spec c3 67) as [EC | NC].
  2:{ msteps. do 2 eexists. split; [reflexivity |].
      split; [fields; reflexivity |].
      split; [repeat constructor |]. split; [repeat constructor |].
      split; [reflexivity |]. intros _ _.
      split; [lia |]. repeat split; intros E; contradiction. }
  rewrite (bind_load 7 c7) by exact H7.
  destruct (isdigit c7) eqn:Hd7; simpl.
  2:{ msteps. do 2 eexists. split; [reflexivity |].
      split; [fields; reflexivity |].
      split; [repeat constructor |]. split; [repeat constructor |].
      split; [reflexivity |]. intros _ _.
      split; [lia |]. split; [intros E; lia |]. split; [intros E; lia |].
      split; [intros E; lia | intros _ E; discriminate E]. }
  rewrite bind_bind, (bind_load 7 c7) by exact H7. msteps.
  destruct (_ =? 0); msteps;
    (do 2 eexists; split; [reflexivity |];
     split; [fields; rewrite <- ?app_assoc; reflexivity |]; cbn [app];
     split; [repeat (apply Forall_cons; [simpl; first [exact I | lia] |]);
             apply Forall_nil |];
     split; [repeat (apply Forall_cons;
                     [simpl; first [exact I | reflexivity] |]);
             apply Forall_nil |];
     split; [intros N; apply (Hno N) |]; intros _ _;
     split; [lia |]; split; [intros E; lia |];
     split; [intros E; lia |]; split; [intros E; lia |];
     intros _ _; reflexivity).
Qed.

(** ** Lines the dispatcher handles as specified *)

(** An RT line of three or more characters: with a comma before the end of
    the line the first such comma becomes NUL and the line goes to the node
    named after it; without one the line goes to the broadcast address. No
    reply is written either way, and the buffer is unlocked: its length is
    zero and the ready flag is off. *)
Theorem rt_line_forwarding s :
  platform_ok ->
  buffer_inv s ->
  at_cmd_ready s = true ->
  has_prefix c_R c_T s = Ok true s ->
  3 <= at_cmd_len s ->
  at_cmd s !! Z.to_nat (at_cmd_len s) = Some c_NUL ->
  exists s',
    at_command s = Ok tt s' /\
    at_cmd_len s' = 0 /\ at_cmd_ready s' = false /\
    ((exists j,
        3 <= j < at_cmd_len s /\
        at_cmd s !! Z.to_nat j = Some c_comma /\
        (forall i, 3 <= i < j -> at_cmd s !! Z.to_nat i <> Some c_comma) /\
        at_cmd s' = <[Z.to_nat j := c_NUL]> (at_cmd s) /\
        out s' = out s ++ [Called (tdm_remote_at_call (rt_destination j s)
                                     (<[Z.to_nat j := c_NUL]> (at_cmd s)))]) \/
     ((forall i, 3 <= i < at_cmd_len s ->
         at_cmd s !! Z.to_nat i <> Some c_comma) /\
      at_cmd s' = at_cmd s /\
      out s' = out s ++ [Called (tdm_remote_at_call 65535 (at_cmd s))])).
Proof.
  intros Hpf Hinv Hready Hrt Hn3 Hnul.
  destruct (at_command_rt Hpf s Hinv Hready Hrt)
    as (j & s' & Hc & (_ & Hl0 & Hr0) & Hj & Hend & Hno & Hout).
  exists s'. split; [exact Hc |]. split; [exact Hl0 |]. split; [exact Hr0 |].
  destruct (decide _) as [Hcomma | Hnone].
  - left. exists j. destruct Hout as [Hb Ho].
    assert (j <> at_cmd_len s).
    { intros ->. rewrite Hnul in Hcomma. discriminate. }
    repeat split; try assumption; lia.
  - right. destruct Hout as [Hb Ho].
    destruct Hend as [Hpast | Hcomma]; [| contradiction].
    split; [| split; assumption].
    intros i Hi. apply Hno. lia.
Qed.

(** What an ATS line does: the answer it writes, and the parameter store
    it leaves behind, which is the store after the calls of the answer. *)
Lemma at_s_run s :
  platform_ok ->
  buffer_inv s ->
  exists s', at_s s = Ok tt s' /\ out s' = out s ++ at_s_reply s /\
             env s' = world_after (calls_of (at_s_reply s)) (env s).
Proof.
  intros Hpf (Hlen & Hlast & Hn). pose proof Hpf as (Hmax & _).
  unfold at_s, at_s_reply. msteps.
  destruct (at_parse_number_returns Hpf (set_idx 3 s))
    as (v & j & Hv & Hj & Hval & Hjeq);
    [exact Hlen | exact Hlast | simpl; lia |].
  rewrite (bind_ok _ _ _ _ _ Hv). fields.
  unfold at_s_index, at_s_cursor. rewrite <- Hval, <- Hjeq.
  destruct (PARAM_MAX <=? u8 v); [msteps; eexists; repeat split; reflexivity |].
  msteps.
  destruct (load_in_range j s Hlen ltac:(lia)) as [c Hc].
  rewrite (bind_load j c) by exact Hc. rewrite Hc.
  destruct (c =? 63).
  { msteps. eexists; split; [reflexivity |]. split; [| reflexivity].
    fields. rewrite <- app_assoc. reflexivity. }
  destruct (Z.eqb_spec c 61) as [-> | _];
    [| msteps; eexists; repeat split; reflexivity].
  destruct (0 <? u8 v); simpl; [| msteps; eexists; repeat split; reflexivity].
  msteps.
  pose proof (not_last_cell j 61 s Hlast Hc ltac:(discriminate) ltac:(lia)) as Hj1.
  rewrite (u8_small (j + 1)) by lia.
  destruct (at_parse_number_returns Hpf (set_idx (j + 1) s))
    as (v2 & j2 & Hv2 & _ & Hval2 & _);
    [exact Hlen | exact Hlast | simpl; lia |].
  rewrite (bind_ok _ _ _ _ _ Hv2). msteps.
  unfold at_s_value, at_s_cursor. rewrite <- Hjeq, <- Hval2.
  unfold answer. fields.
  destruct (fst (collab (param_set_call (u8 v) v2) (env s)) =? 0); simpl; msteps;
    (eexists; split; [reflexivity |]; split; [| reflexivity];
     fields; rewrite <- app_assoc; reflexivity).
Qed.

(** An ATS line is answered as specified for the register its number
    denotes modulo 256. *)
Theorem at_s_replies s :
  platform_ok ->
  buffer_inv s ->
  exists s', at_s s = Ok tt s' /\ out s' = out s ++ at_s_reply s.
Proof.
  intros Hpf Hinv.
  destruct (at_s_run s Hpf Hinv) as (s' & Hr & Ho & _).
  exists s'. split; assumption.
Qed.

Lemma has_prefix_eq (a b c0 c1 : Z) s :
  2 <= at_cmd_len s ->
  at_cmd s !! 0%nat = Some c0 ->
  at_cmd s !! 1%nat = Some c1 ->
  has_prefix a b s = Ok ((c0 =? a) && (c1 =? b)) s.
Proof.
  intros Hn H0 H1. unfold has_prefix. msteps.
  destruct (Z.leb_spec 2 (at_cmd_len s)); [| lia].
  rewrite (bind_load 0 c0) by exact H0.
  destruct (c0 =? a); simpl; [| reflexivity].
  rewrite (bind_load 1 c1) by exact H1. reflexivity.
Qed.

(** A ready AT line whose third character is [c]: what the dispatcher
    does before it unlocks the buffer is the case of [c]. *)
Lemma at_command_at_line c s :
  at_cmd_ready s = true ->
  2 <= at_cmd_len s ->
  at_cmd s !! 0%nat = Some c_A ->
  at_cmd s !! 1%nat = Some c_T ->
  at_cmd s !! 2%nat = Some c ->
  c <> c_amp -> c <> c_plus -> c <> c_I -> c <> c_P -> c <> c_O ->
  c <> c_S -> c <> c_Z ->
  at_command s =
    Ok tt (set_at_cmd_ready false
             (set_at_cmd_len 0
                (set_out (out s ++ [if c =? c_NUL
                                    then ReplyOK (nodeId (env s))
                                    else ReplyERROR (nodeId (env s))]) s))).
Proof.
  intros Hready Hn H0 H1 H2 Namp Nplus NI NP NO NS NZ.
  unfold at_command. msteps. rewrite Hready.
  rewrite (bind_ok _ _ _ _ _ (has_prefix_eq c_R c_T c_A c_T s Hn H0 H1)).
  change ((c_A =? c_R) && (c_T =? c_T)) with false. cbv iota.
  rewrite (bind_ok _ _ _ _ _ (has_prefix_eq c_A c_T c_A c_T s Hn H0 H1)).
  change ((c_A =? c_A) && (c_T =? c_T)) with true. cbv iota.
  rewrite bind_bind, (bind_load 2 c) by exact H2.
  rewrite (Zeqb_ne _ _ Namp), (Zeqb_ne _ _ Nplus), (Zeqb_ne _ _ NI),
    (Zeqb_ne _ _ NP), (Zeqb_ne _ _ NO), (Zeqb_ne _ _ NS), (Zeqb_ne _ _ NZ).
  destruct (c =? 0); msteps; reflexivity.
Qed.

(** The line [AT] is answered with exactly one OK, and an AT line with an
    unknown third character with exactly one ERROR. *)
Theorem at_line_is_acknowledged c s :
  at_cmd_ready s = true ->
  2 <= at_cmd_len s ->
  at_cmd s !! 0%nat = Some c_A ->
  at_cmd s !! 1%nat = Some c_T ->
  at_cmd s !! 2%nat = Some c ->
  c <> c_amp -> c <> c_plus -> c <> c_I -> c <> c_P -> c <> c_O ->
  c <> c_S -> c <> c_Z ->
  exists s',
    at_command s = Ok tt s' /\
    at_cmd_len s' = 0 /\ at_cmd_ready s' = false /\
    (c = c_NUL -> out s' = out s ++ [ReplyOK (nodeId (env s))]) /\
    (c <> c_NUL -> out s' = out s ++ [ReplyERROR (nodeId (env s))]).
Proof.
  intros Hready Hn H0 H1 H2 Namp Nplus NI NP NO NS NZ.
  rewrite (at_command_at_line c s) by assumption.
  eexists. split; [reflexivity |]. fields.
  split; [reflexivity |]. split; [reflexivity |]. split.
  - intros ->. reflexivity.
  - intros Hc. rewrite (Zeqb_ne _ _ Hc). reflexivity.
Qed.

(** C9: on a platform whose constants fit their types, the line editor,
    the timer and the dispatcher keep [at_cmd_len] within [AT_CMD_MAXLEN]
    and never store outside the [AT_CMD_MAXLEN + 1] cells of [at_cmd]:
    from a well-formed buffer each of them ends, in a well-formed buffer
    again or in one of the two endless loops. *)
Theorem at_cmd_len_never_exceeds_maximum s :
  platform_ok ->
  buffer_inv s ->
  (forall c, exists s', at_input c s = Ok tt s' /\ buffer_inv s') /\
  (exists s', at_timer s = Ok tt s' /\ buffer_inv s') /\
  match at_command s with
  | Ok _ s' => buffer_inv s'
  | Halt _ _ => True
  | _ => False
  end.
Proof.
  intros Hpf Hinv. split; [| split].
  - intros c. apply at_input_keeps_inv; assumption.
  - apply at_timer_keeps_buffer_inv; assumption.
  - destruct (at_cmd_ready s) eqn:Hready.
    + pose proof (at_command_outcome Hpf s Hinv Hready) as Ho.
      destruct (at_command s); try exact Ho; [apply Ho | exact I].
    + unfold at_command. rewrite bind_gets, Hready. exact Hinv.
Qed.

(** C6: a ready line always leaves the dispatcher with [at_cmd_len] zero
    and [at_cmd_ready] false, unless the line is an AT line whose third
    character is [Z] (software reset) or [&] followed by [U] (forced
    fault), the only two ways not to return; a line with neither the RT nor
    the AT prefix is dropped without any output. *)
Theorem at_command_always_unlocks s :
  platform_ok ->
  buffer_inv s ->
  at_cmd_ready s = true ->
  match at_command s with
  | Ok _ s' => at_cmd_len s' = 0 /\ at_cmd_ready s' = false
  | Halt h _ =>
      has_prefix c_A c_T s = Ok true s /\
      (h = SoftwareReset /\ at_cmd s !! 2%nat = Some c_Z \/
       h = ForcedFault /\ at_cmd s !! 2%nat = Some c_amp /\
       at_cmd s !! 3%nat = Some c_U)
  | _ => False
  end /\
  (has_prefix c_R c_T s = Ok false s ->
   has_prefix c_A c_T s = Ok false s ->
   exists s',
     at_command s = Ok tt s' /\ out s' = out s /\
     at_cmd_len s' = 0 /\ at_cmd_ready s' = false).
Proof.
  intros Hpf Hinv Hready. split.
  - pose proof (at_command_outcome Hpf s Hinv Hready) as Ho.
    destruct (at_command s); try exact Ho. apply Ho.
  - intros Hrt Hat. unfold at_command.
    rewrite bind_gets, Hready, (bind_ok _ _ _ _ _ Hrt), (bind_ok _ _ _ _ _ Hat).
    msteps. eexists. split; [reflexivity |]. fields. auto.
Qed.

(** ** The line editor, a line at a time *)

Lemma isprint_range c : isprint c = true -> 32 <= c <= 126.
Proof.
  unfold isprint. intros H. apply andb_prop in H as [Hlo Hhi].
  apply Z.leb_le in Hlo, Hhi. lia.
Qed.

Lemma toupper_range c : isprint c = true -> 32 <= toupper c <= 126.
Proof.
  intros H. apply isprint_range in H. unfold toupper.
  destruct (Z.leb_spec 97 c), (Z.leb_spec c 122); simpl; lia.
Qed.

Lemma at_input_append c s :
  AT_CMD_MAXLEN <= 255 ->
  isprint c = true ->
  0 <= at_cmd_len s < AT_CMD_MAXLEN ->
  (Z.to_nat (at_cmd_len s) < length (at_cmd s))%nat ->
  at_input c s =
    Ok tt (set_out (out s ++ [Putchar (toupper c)])
             (set_at_cmd_len (at_cmd_len s + 1)
                (set_at_cmd (<[Z.to_nat (at_cmd_len s) := toupper c]> (at_cmd s)) s))).
Proof.
  intros Hmax Hp Hn Hlen.
  pose proof (isprint_range c Hp) as Hc. pose proof (toupper_range c Hp) as Hu.
  unfold at_input.
  rewrite (Zeqb_ne c 13), (Zeqb_ne c 8), (Zeqb_ne c 127) by lia.
  change (false || false) with false. cbv iota. msteps.
  destruct (Z.ltb_spec (at_cmd_len s) AT_CMD_MAXLEN); [| lia].
  rewrite Hp, (u8_small (toupper c)), (u8_small (at_cmd_len s + 1)) by lia.
  rewrite bind_store by exact Hlen. msteps. reflexivity.
Qed.

Lemma at_input_submit s :
  (Z.to_nat (at_cmd_len s) < length (at_cmd s))%nat ->
  at_input c_CR s =
    Ok tt (set_at_cmd_ready true
             (set_at_cmd (<[Z.to_nat (at_cmd_len s) := c_NUL]> (at_cmd s))
                (set_out (out s ++ [Putchar c_NL]) s))).
Proof.
  intros Hlen. unfold at_input. simpl. msteps.
  rewrite bind_store by (fields; exact Hlen). msteps. reflexivity.
Qed.

Lemma at_input_erase d s :
  d = c_BS \/ d = c_DEL ->
  at_input d s =
    if 0 <? at_cmd_len s
    then Ok tt (set_at_cmd_len (u8 (at_cmd_len s - 1))
                  (set_out (out s ++ [Putchar c_BS; Putchar c_SP; Putchar c_BS]) s))
    else Ok tt s.
Proof.
  intros [-> | ->]; unfold at_input; simpl; msteps;
    (destruct (0 <? at_cmd_len s); [| reflexivity]);
    msteps; rewrite <- !app_assoc; reflexivity.
Qed.

Lemma at_input_unprintable c s :
  c <> c_CR -> c <> c_BS -> c <> c_DEL ->
  isprint c = false ->
  at_cmd_len s < AT_CMD_MAXLEN ->
  at_input c s = Ok tt s.
Proof.
  intros Hcr Hbs Hdel Hp Hn. unfold at_input.
  rewrite (Zeqb_ne _ _ Hcr), (Zeqb_ne _ _ Hbs), (Zeqb_ne _ _ Hdel).
  change (false || false) with false. cbv iota. msteps.
  destruct (Z.ltb_spec (at_cmd_len s) AT_CMD_MAXLEN); [| lia].
  rewrite Hp. reflexivity.
Qed.

Lemma type_in_app (a b : list Z) s :
  type_in (a ++ b) s = bind (type_in a) (fun _ => type_in b) s.
Proof.
  revert s. induction a as [| c a IH]; intros s; simpl.
  - reflexivity.
  - rewrite bind_bind. apply bind_ext. intros _ s'. apply IH.
Qed.

Lemma type_in_printable (cs : list Z) s :
  platform_ok ->
  buffer_inv s ->
  Forall (fun c => isprint c = true) cs ->
  at_cmd_len s + Z.of_nat (length cs) <= AT_CMD_MAXLEN ->
  type_in cs s =
    Ok tt (set_out (out s ++ map (fun c => Putchar (toupper c)) cs)
             (set_at_cmd_len (at_cmd_len s + Z.of_nat (length cs))
                (set_at_cmd
                   (take (Z.to_nat (at_cmd_len s)) (at_cmd s) ++
                    map toupper cs ++
                    drop (Z.to_nat (at_cmd_len s) + length cs) (at_cmd s)) s))).
Proof.
  intros Hpf Hinv Hcs. revert s Hinv.
  induction Hcs as [| c cs Hc _ IH]; intros s Hinv Hroom.
  - simpl. rewrite Nat.add_0_r, take_drop, app_nil_r, Z.add_0_r.
    destruct s; reflexivity.
  - pose proof Hinv as (Hlen & Hlast & Hn). pose proof Hpf as (Hmax & _).
    simpl length in Hroom.
    assert (Happ := at_input_append c s ltac:(lia) Hc ltac:(lia) ltac:(lia)).
    destruct (at_input_keeps_inv Hpf c s Hinv) as (s1 & Hs1 & Hinv1).
    rewrite Happ in Hs1. injection Hs1 as <-.
    simpl type_in. rewrite (bind_ok _ _ _ _ _ Happ).
    rewrite IH; [| exact Hinv1 | fields; lia]. fields.
    unfold set_out, set_at_cmd_len, set_at_cmd. fields. f_equal. f_equal.
    + replace (Z.to_nat (at_cmd_len s + 1)) with (S (Z.to_nat (at_cmd_len s))) by lia.
      rewrite (take_S_r _ _ (toupper c)) by (apply list_lookup_insert_eq; lia).
      rewrite take_insert_ge by lia.
      rewrite drop_insert_lt by lia.
      rewrite <- app_assoc. simpl.
      replace (Z.to_nat (at_cmd_len s) + S (length cs))%nat
        with (S (Z.to_nat (at_cmd_len s) + length cs)) by lia.
      reflexivity.
    + simpl length. lia.
    + rewrite <- app_assoc. reflexivity.
Qed.

Lemma type_in_keeps_inv (cs : list Z) s :
  platform_ok -> buffer_inv s ->
  exists s', type_in cs s = Ok tt s' /\ buffer_inv s'.
Proof.
  intros Hpf. revert s. induction cs as [| c cs IH]; intros s Hinv.
  - exists s. split; [reflexivity | exact Hinv].
  - destruct (at_input_keeps_inv Hpf c s Hinv) as (s1 & Hs1 & Hinv1).
    simpl. rewrite (bind_ok _ _ _ _ _ Hs1). apply IH, Hinv1.
Qed.

(** Typing printable characters that fit and then a carriage return
    leaves the line ready as the dispatcher reads it: the characters in
    upper case after what was there, closed by NUL, each echoed in upper
    case and the carriage return as a line feed. *)
Theorem typed_line_is_submitted (cs : list Z) s :
  platform_ok ->
  buffer_inv s ->
  Forall (fun c => isprint c = true) cs ->
  at_cmd_len s + Z.of_nat (length cs) <= AT_CMD_MAXLEN ->
  exists s',
    type_in (cs ++ [c_CR]) s = Ok tt s' /\
    at_cmd_ready s' = true /\
    at_cmd_len s' = at_cmd_len s + Z.of_nat (length cs) /\
    take (Z.to_nat (at_cmd_len s')) (at_cmd s') =
      take (Z.to_nat (at_cmd_len s)) (at_cmd s) ++ map toupper cs /\
    at_cmd s' !! Z.to_nat (at_cmd_len s') = Some c_NUL /\
    out s' = out s ++ map (fun c => Putchar (toupper c)) cs ++ [Putchar c_NL] /\
    at_mode_active s' = at_mode_active s /\
    buffer_inv s'.
Proof.
  intros Hpf Hinv Hcs Hroom.
  pose proof Hinv as (Hlen & Hlast & Hn). pose proof Hpf as (Hmax & _).
  destruct (type_in_keeps_inv (cs ++ [c_CR]) s Hpf Hinv) as (s' & Hrun & Hinv').
  exists s'. split; [exact Hrun |].
  rewrite type_in_app, (bind_ok _ _ _ _ _ (type_in_printable cs s Hpf Hinv Hcs Hroom))
    in Hrun.
  set (n := Z.to_nat (at_cmd_len s)) in *.
  set (line := take n (at_cmd s) ++ map toupper cs ++
               drop (n + length cs) (at_cmd s)) in *.
  assert (Hll : length line = length (at_cmd s)).
  { unfold line. rewrite !length_app, length_take, length_map, length_drop. lia. }
  cbv beta in Hrun. simpl type_in in Hrun.
  match type of Hrun with
  | bind (at_input c_CR) _ ?s1 = _ =>
      rewrite (bind_ok _ _ _ _ _ (at_input_submit s1 ltac:(fields; lia))) in Hrun
  end.
  unfold ret in Hrun. injection Hrun as <-. fields.
  assert (Hnat : Z.to_nat (at_cmd_len s + Z.of_nat (length cs))
                 = (n + length cs)%nat) by lia.
  rewrite Hnat in *.
  split; [reflexivity |]. split; [reflexivity |].
  split; [| split; [| split; [| split; [reflexivity | exact Hinv']]]].
  - rewrite take_insert_ge by lia. unfold line.
    rewrite app_assoc, take_app_length'; [reflexivity |].
    rewrite length_app, length_take, length_map. lia.
  - apply list_lookup_insert_eq. lia.
  - rewrite <- !app_assoc. reflexivity.
Qed.

Lemma at_input_toupper c s : at_input (toupper c) s = at_input c s.
Proof.
  unfold toupper at 1.
  destruct (Z.leb_spec 97 c) as [Hlo | Hlo]; simpl; [| reflexivity].
  destruct (Z.leb_spec c 122) as [Hhi | Hhi]; simpl; [| reflexivity].
  unfold at_input.
  rewrite (Zeqb_ne (c - 32) 13), (Zeqb_ne (c - 32) 8), (Zeqb_ne (c - 32) 127),
    (Zeqb_ne c 13), (Zeqb_ne c 8), (Zeqb_ne c 127) by lia.
  assert (Hp1 : isprint (c - 32) = true).
  { unfold isprint. apply andb_true_intro. split; apply Z.leb_le; lia. }
  assert (Hp2 : isprint c = true).
  { unfold isprint. apply andb_true_intro. split; apply Z.leb_le; lia. }
  rewrite Hp1, Hp2.
  assert (Hu : toupper (c - 32) = toupper c).
  { unfold toupper.
    destruct (Z.leb_spec 97 (c - 32)), (Z.leb_spec (c - 32) 122),
      (Z.leb_spec 97 c), (Z.leb_spec c 122); simpl; lia. }
  rewrite Hu. reflexivity.
Qed.

(** Input is case-insensitive: a line typed in lower case leaves the line
    editor exactly as the same line typed in upper case. *)
Theorem type_in_folds_case (cs : list Z) s :
  type_in (map toupper cs) s = type_in cs s.
Proof.
  revert s. induction cs as [| c cs IH]; intros s; simpl.
  - reflexivity.
  - unfold bind. rewrite at_input_toupper.
    destruct (at_input c s); try reflexivity. apply IH.
Qed.

(** Backspace and delete take back the character typed before them: the
    length and the cells below it are as before, and the host sees the
    character followed by backspace, space, backspace.  On an empty buffer
    they do nothing at all. *)
Theorem backspace_undoes_character c d s :
  platform_ok ->
  buffer_inv s ->
  d = c_BS \/ d = c_DEL ->
  isprint c = true ->
  at_cmd_len s < AT_CMD_MAXLEN ->
  (exists s',
     type_in [c; d] s = Ok tt s' /\
     at_cmd_len s' = at_cmd_len s /\
     take (Z.to_nat (at_cmd_len s)) (at_cmd s') =
       take (Z.to_nat (at_cmd_len s)) (at_cmd s) /\
     out s' = out s ++ [Putchar (toupper c); Putchar c_BS; Putchar c_SP;
                        Putchar c_BS] /\
     at_cmd_ready s' = at_cmd_ready s /\
     at_mode_active s' = at_mode_active s) /\
  (at_cmd_len s = 0 -> at_input d s = Ok tt s).
Proof.
  intros Hpf (Hlen & Hlast & Hn) Hd Hp Hroom. pose proof Hpf as (Hmax & _).
  split.
  - simpl type_in.
    rewrite (bind_ok _ _ _ _ _ (at_input_append c s ltac:(lia) Hp ltac:(lia) ltac:(lia))).
    cbv beta. simpl type_in. unfold bind.
    rewrite (at_input_erase d _ Hd). fields.
    destruct (Z.ltb_spec 0 (at_cmd_len s + 1)); [| lia].
    eexists. split; [reflexivity |]. fields.
    replace (at_cmd_len s + 1 - 1) with (at_cmd_len s) by lia.
    rewrite u8_small by lia. rewrite take_insert_ge by lia.
    rewrite <- app_assoc. auto 10.
  - intros H0. rewrite (at_input_erase d s Hd), H0. reflexivity.
Qed.

(** Bytes that are neither printable nor carriage return, backspace or
    delete leave no trace while there is room: a string without carriage
    return, backspace and delete that fits the buffer is taken in exactly
    as the string of its printable characters is. *)
Theorem type_in_skips_unprintable (cs : list Z) s :
  platform_ok ->
  buffer_inv s ->
  Forall (fun c => c <> c_CR /\ c <> c_BS /\ c <> c_DEL) cs ->
  at_cmd_len s + Z.of_nat (length cs) <= AT_CMD_MAXLEN ->
  type_in cs s = type_in (List.filter isprint cs) s.
Proof.
  intros Hpf Hinv Hcs. revert s Hinv.
  induction Hcs as [| c cs (Hcr & Hbs & Hdel) _ IH]; intros s Hinv Hroom.
  - reflexivity.
  - pose proof Hinv as (Hlen & Hlast & Hn). pose proof Hpf as (Hmax & _).
    simpl length in Hroom. simpl List.filter.
    destruct (isprint c) eqn:Hp.
    + assert (Happ := at_input_append c s ltac:(lia) Hp ltac:(lia) ltac:(lia)).
      destruct (at_input_keeps_inv Hpf c s Hinv) as (s1 & Hs1 & Hinv1).
      simpl type_in. rewrite !(bind_ok _ _ _ _ _ Hs1).
      apply IH; [exact Hinv1 |].
      rewrite Happ in Hs1. injection Hs1 as <-. fields. lia.
    + simpl type_in.
      rewrite (bind_ok _ _ _ _ _ (at_input_unprintable c s Hcr Hbs Hdel Hp ltac:(lia))).
      apply IH; [exact Hinv | lia].
Qed.

(** ** The dumps of ATI5 and ATPP *)

Lemma at_i_dump_trace (fuel : nat) (id : Z) s :
  PARAM_MAX <= 255 ->
  0 <= id <= 255 -> 256 - id <= Z.of_nat fuel ->
  exists s',
    at_i_dump fuel id s = Ok tt s' /\
    out s' = out s ++ map (fun i => Called (param_print_call i))
                        (seqZ id (PARAM_MAX - id)).
Proof.
  intros Hparam. revert id s.
  induction fuel as [| fuel IH]; intros id s Hid Hfuel; [lia |].
  simpl. destruct (Z.ltb_spec id PARAM_MAX) as [Hlt | Hge].
  - msteps. rewrite u8_small by lia.
    destruct (IH (id + 1) (called (param_print_call id) s)) as (s' & Hr & Ho);
      [lia | lia |].
    exists s'. split; [exact Hr |]. rewrite Ho. fields.
    rewrite (seqZ_cons id) by lia. simpl. rewrite <- app_assoc. simpl.
    replace (Z.succ id) with (id + 1) by lia.
    replace (Z.pred (PARAM_MAX - id)) with (PARAM_MAX - (id + 1)) by lia.
    reflexivity.
  - exists s. split; [reflexivity |].
    rewrite seqZ_nil by lia. simpl. rewrite app_nil_r. reflexivity.
Qed.

(** ATI5 calls [param_print] once for every parameter, from 0 to
    [PARAM_MAX - 1] in this order, and writes nothing of its own: no OK and
    no ERROR. *)
Theorem ati5_prints_every_parameter s :
  PARAM_MAX <= 255 ->
  at_cmd s !! 3%nat = Some c_5 ->
  exists s',
    at_i s = Ok tt s' /\
    out s' = out s ++ map (fun i => Called (param_print_call i))
                        (seqZ 0 PARAM_MAX).
Proof.
  intros Hparam H3. unfold at_i. msteps.
  rewrite (bind_load 3 c_5) by exact H3. simpl.
  destruct (at_i_dump_trace 256 0 s Hparam ltac:(lia) ltac:(lia)) as (s' & Hr & Ho).
  exists s'. split; [exact Hr |]. rewrite Ho, Z.sub_0_r. reflexivity.
Qed.

Lemma at_p_dump_trace (fuel : nat) (pinId : Z) s :
  PIN_MAX <= 255 ->
  0 <= pinId <= 255 -> 256 - pinId <= Z.of_nat fuel ->
  exists s' new,
    at_p_dump fuel pinId s = Ok tt s' /\
    out s' = out s ++ new /\
    calls_of new =
      flat_map (fun p => [pins_user_get_io_call p; pins_user_get_value_call p])
        (seqZ pinId (PIN_MAX - pinId)) /\
    Forall (fun e => is_reply e = false) new.
Proof.
  intros Hpin. revert pinId s.
  induction fuel as [| fuel IH]; intros pinId s Hid Hfuel; [lia |].
  simpl. destruct (Z.ltb_spec pinId PIN_MAX) as [Hlt | Hge].
  - msteps. rewrite u8_small by lia.
    set (io := answer (pins_user_get_io_call pinId)
                 (set_out (out s ++ [PrintPin (nodeId (env s)) pinId]) s)).
    set (e := if negb (io =? 0) then PrintOutput else PrintInput).
    assert (He : calls_of [e] = [] /\ is_reply e = false)
      by (unfold e; destruct (negb _); split; reflexivity).
    assert (Hif : forall (k : unit -> M unit) s1,
              bind (if negb (io =? 0) then emit PrintOutput else emit PrintInput)
                k s1 = k tt (set_out (out s1 ++ [e]) s1))
      by (intros k s1; unfold e; destruct (negb _); reflexivity).
    rewrite Hif. msteps.
    match goal with
    | |- exists s' new, at_p_dump fuel (pinId + 1) ?s3 = _ /\ _ =>
        destruct (IH (pinId + 1) s3) as (s' & new & Hr & Ho & Hc & Hn);
          [lia | lia |]
    end.
    exists s'. eexists. split; [exact Hr |]. fields.
    split; [rewrite Ho, <- !app_assoc; simpl; reflexivity |].
    split.
    + rewrite (seqZ_cons pinId) by lia. simpl.
      change (calls_of (PrintPin ?a ?b :: ?l)) with (calls_of l).
      unfold calls_of in *. simpl. destruct He as [He _]. unfold calls_of in He.
      replace (Z.succ pinId) with (pinId + 1) by lia.
      replace (Z.pred (PIN_MAX - pinId)) with (PIN_MAX - (pinId + 1)) by lia.
      unfold e in *. destruct (negb (io =? 0)); simpl; rewrite Hc;
        reflexivity.
    + repeat (constructor; [first [reflexivity | apply He] |]). exact Hn.
  - exists s, []. split; [reflexivity |]. rewrite app_nil_r.
    rewrite seqZ_nil by lia. repeat split; constructor.
Qed.

(** ATPP asks for the direction and the value of every user pin, from 0 to
    [PIN_MAX - 1] in this order and of no other pin, and writes neither OK
    nor ERROR. *)
Theorem atpp_reads_every_pin s :
  PIN_MAX <= 255 ->
  at_cmd s !! 3%nat = Some c_P ->
  exists s' new,
    at_p s = Ok tt s' /\
    out s' = out s ++ new /\
    calls_of new =
      flat_map (fun p => [pins_user_get_io_call p; pins_user_get_value_call p])
        (seqZ 0 PIN_MAX) /\
    Forall (fun e => is_reply e = false) new.
Proof.
  intros Hpin H3. unfold at_p.
  rewrite (bind_load 3 c_P) by exact H3. simpl.
  destruct (at_p_dump_trace 256 0 s Hpin ltac:(lia) ltac:(lia))
    as (s' & new & Hr & Ho & Hc & Hn).
  exists s', new. rewrite Z.sub_0_r in Hc. auto.
Qed.

(** A pin command that is not well formed (no [=] in cell 4, no digit in
    cell 5, a letter other than O, I, R, C in cell 3, or ATPC without a
    digit in cell 7) is answered with one ERROR and reaches no pin. *)
Theorem malformed_pin_command_is_refused (c3 c4 c5 c7 : Z) s :
  at_cmd s !! 3%nat = Some c3 ->
  at_cmd s !! 4%nat = Some c4 ->
  at_cmd s !! 5%nat = Some c5 ->
  at_cmd s !! 7%nat = Some c7 ->
  c3 <> c_P ->
  c4 <> c_eq \/ isdigit c5 = false \/
  (c3 <> c_O /\ c3 <> c_I /\ c3 <> c_R /\ c3 <> c_C) \/
  (c3 = c_C /\ isdigit c7 = false) ->
  at_p s = Ok tt (set_out (out s ++ [ReplyERROR (nodeId (env s))]) s).
Proof.
  intros H3 H4 H5 H7 HnP Hbad. unfold at_p.
  rewrite (bind_load 3 c3) by exact H3. rewrite (Zeqb_ne _ _ HnP).
  rewrite (bind_load 4 c4) by exact H4.
  destruct (Z.eqb_spec c4 61) as [E4 | N4]; simpl; [| msteps; reflexivity].
  rewrite bind_bind, (bind_load 5 c5) by exact H5. msteps.
  destruct (isdigit c5) eqn:Hd5; simpl; [| msteps; reflexivity].
  rewrite (bind_load 5 c5) by exact H5.
  rewrite (bind_load 3 c3) by exact H3.
  destruct Hbad as [Hb | [Hb | [(NO & NI & NR & NC) | (EC & Hd7)]]];
    [contradiction | discriminate | |].
  - rewrite (Zeqb_ne _ _ NO), (Zeqb_ne _ _ NI), (Zeqb_ne _ _ NR),
      (Zeqb_ne _ _ NC). msteps. reflexivity.
  - subst c3. simpl. rewrite (bind_load 7 c7) by exact H7.
    rewrite Hd7. simpl. msteps. reflexivity.
Qed.

(** ** AT& *)

Lemma strcmp_eq_iff (lit : list Z) (i : Z) s :
  0 <= i ->
  (Z.to_nat i + length lit < length (at_cmd s))%nat ->
  exists r,
    strcmp_eq lit i s = Ok r s /\
    (r = true <->
     take (S (length lit)) (drop (Z.to_nat i) (at_cmd s)) = lit ++ [c_NUL]).
Proof.
  revert i. induction lit as [| l lit IH]; intros i Hi Hlen; simpl in *.
  - destruct (lookup_lt_is_Some_2 (at_cmd s) (Z.to_nat i) ltac:(lia)) as [c Hc].
    rewrite (bind_load i c) by exact Hc.
    eexists. split; [reflexivity |].
    rewrite (drop_S _ _ _ Hc). simpl. rewrite take_0.
    destruct (Z.eqb_spec c 0) as [-> | Hne]; split; try reflexivity;
      try discriminate.
    intros [=]. contradiction.
  - destruct (lookup_lt_is_Some_2 (at_cmd s) (Z.to_nat i) ltac:(lia)) as [c Hc].
    rewrite (bind_load i c) by exact Hc.
    rewrite (drop_S _ _ _ Hc).
    destruct (Z.eqb_spec c l) as [-> | Hne].
    + destruct (IH (i + 1) ltac:(lia) ltac:(lia)) as (r & Hr & Hiff).
      exists r. split; [exact Hr |].
      replace (Z.to_nat (i + 1)) with (S (Z.to_nat i)) in Hiff by lia.
      rewrite Hiff. simpl. split; [intros ->; reflexivity | intros [=]; assumption].
    + eexists. split; [reflexivity |]. split; [discriminate |].
      simpl. intros [=]. contradiction.
Qed.


Lemma lxor_byte (a b : Z) : 0 <= a < 256 -> 0 <= b < 256 -> 0 <= Z.lxor a b < 256.
Proof.
  intros Ha Hb.
  assert (Hnn : 0 <= Z.lxor a b) by (apply Z.lxor_nonneg; lia).
  split; [exact Hnn |].
  destruct (Z.eq_dec (Z.lxor a b) 0) as [-> | Hne]; [lia |].
  apply (Z.log2_lt_pow2 _ 8); [lia |].
  pose proof (Z.log2_lxor a b ltac:(lia) ltac:(lia)) as Hl.
  assert (Hla : Z.log2 a < 8).
  { destruct (Z.eq_dec a 0) as [-> | ?]; [reflexivity |].
    apply Z.log2_lt_pow2; lia. }
  assert (Hlb : Z.log2 b < 8).
  { destruct (Z.eq_dec b 0) as [-> | ?]; [reflexivity |].
    apply Z.log2_lt_pow2; lia. }
  lia.
Qed.

Lemma land_lxor_disjoint (a f o : Z) :
  Z.land f o = 0 -> Z.land (Z.lxor a f) o = Z.land a o.
Proof.
  intros Hfo. apply Z.bits_inj'. intros n Hn.
  rewrite !Z.land_spec, Z.lxor_spec.
  assert (Hbit : Z.testbit f n && Z.testbit o n = false).
  { rewrite <- Z.land_spec, Hfo. apply Z.bits_0. }
  destruct (Z.testbit a n), (Z.testbit f n), (Z.testbit o n);
    simpl in *; congruence.
Qed.

Lemma set_at_testmode_same s : set_at_testmode (at_testmode s) s = s.
Proof. destruct s; reflexivity. Qed.

(** AT&T=RSSI and AT&T=TDM each flip their own flag of [at_testmode] and
    write nothing, not even OK: given a second time the command puts the
    state back exactly as it was, and a flag that shares no bit with the
    flipped one is left alone. *)
Theorem test_mode_toggles (lit rest : list Z) (flag : Z) s :
  lit = lit_eqRSSI /\ flag = AT_TEST_RSSI \/
  lit = lit_eqTDM /\ flag = AT_TEST_TDM ->
  (10 <= length (at_cmd s))%nat ->
  at_cmd s !! 3%nat = Some c_T ->
  drop 4 (at_cmd s) = lit ++ c_NUL :: rest ->
  0 <= at_testmode s < 256 ->
  0 <= flag < 256 ->
  exists s1,
    at_ampersand s = Ok tt s1 /\
    at_ampersand s1 = Ok tt s /\
    at_testmode s1 = Z.lxor (at_testmode s) flag /\
    out s1 = out s /\
    (forall other, Z.land flag other = 0 ->
       Z.land (at_testmode s1) other = Z.land (at_testmode s) other).
Proof.
  intros Hwhich Hlen H3 Hdrop Htm Hflag.
  assert (Hrun : forall s0,
            at_cmd s0 = at_cmd s ->
            at_ampersand s0 =
              Ok tt (set_at_testmode (u8 (Z.lxor (at_testmode s0) flag)) s0)).
  { intros s0 Hb.
    destruct (strcmp_eq_iff [] 4 s0 ltac:(lia) ltac:(rewrite Hb; simpl; lia))
      as (r0 & Hr0 & Hi0).
    destruct (strcmp_eq_iff lit_eqRSSI 4 s0 ltac:(lia)
                ltac:(rewrite Hb; simpl; lia)) as (r1 & Hr1 & Hi1).
    destruct (strcmp_eq_iff lit_eqTDM 4 s0 ltac:(lia)
                ltac:(rewrite Hb; simpl; lia)) as (r2 & Hr2 & Hi2).
    change (Z.to_nat 4) with 4%nat in Hi0, Hi1, Hi2.
    rewrite Hb, Hdrop in Hi0, Hi1, Hi2.
    unfold at_ampersand. rewrite (bind_load 3 c_T) by (rewrite Hb; exact H3).
    simpl. rewrite (bind_ok _ _ _ _ _ Hr0).
    destruct Hwhich as [[-> ->] | [-> ->]].
    - destruct r0;
        [assert (Hx := proj1 Hi0 eq_refl); simpl in Hx; discriminate Hx |].
      rewrite (bind_ok _ _ _ _ _ Hr1).
      destruct r1; [reflexivity |].
      assert (false = true) by (apply Hi1; reflexivity). discriminate.
    - destruct r0;
        [assert (Hx := proj1 Hi0 eq_refl); simpl in Hx; discriminate Hx |].
      rewrite (bind_ok _ _ _ _ _ Hr1).
      destruct r1;
        [assert (Hx := proj1 Hi1 eq_refl); simpl in Hx; discriminate Hx |].
      rewrite (bind_ok _ _ _ _ _ Hr2).
      destruct r2; [reflexivity |].
      assert (false = true) by (apply Hi2; reflexivity). discriminate. }
  pose proof (lxor_byte _ _ Htm Hflag) as Hx.
  eexists. split; [apply Hrun; reflexivity |].
  rewrite Hrun by reflexivity. fields.
  rewrite (u8_small (Z.lxor (at_testmode s) flag)) by lia.
  rewrite Z.lxor_assoc, Z.lxor_nilpotent, Z.lxor_0_r.
  rewrite (u8_small (at_testmode s)) by lia.
  split; [f_equal; unfold set_at_testmode; fields; apply set_at_testmode_same |].
  split; [reflexivity |]. split; [reflexivity |].
  intros other Ho. apply land_lxor_disjoint, Ho.
Qed.

(** ** AT+ *)

Lemma land_255_range (v : Z) : 0 <= Z.land v 255 <= 255.
Proof.
  assert (Hmod : Z.land v 255 = v mod 256).
  { change 255 with (Z.ones 8). rewrite Z.land_ones by lia. reflexivity. }
  rewrite Hmod.
  pose proof (Z.mod_pos_bound v 256 ltac:(lia)). lia.
Qed.

Lemma u8_range (v : Z) : 0 <= u8 v <= 255.
Proof. unfold u8. pose proof (Z.mod_pos_bound v 256 ltac:(lia)). lia. Qed.

(** AT+ returns on every line; the calibration register it names and the
    values it hands to the PWM register and to the calibration store are
    bytes, whatever number was typed.  Without the rfd900a board it only
    answers ERROR. *)
Theorem at_plus_hands_on_bytes s :
  platform_ok ->
  buffer_inv s ->
  exists s' new,
    at_plus s = Ok tt s' /\
    out s' = out s ++ new /\
    Forall byte_args new /\
    (BOARD_rfd900a = false -> new = [ReplyERROR (nodeId (env s))]).
Proof.
  intros Hpf (Hlen & Hlast & Hn). pose proof Hpf as (Hmax & _).
  assert (Hfin : forall s1 (e : event) (pre : list event),
            BOARD_rfd900a = true ->
            out s1 = out s ++ pre -> Forall byte_args pre -> byte_args e ->
            exists s' new,
              emit e s1 = Ok tt s' /\ out s' = out s ++ new /\
              Forall byte_args new /\
              (BOARD_rfd900a = false -> new = [ReplyERROR (nodeId (env s))])).
  { intros s1 e pre Hb Ho Hpre He.
    do 2 eexists; split; [reflexivity |]. fields. rewrite Ho.
    split; [rewrite <- app_assoc; reflexivity |]. split.
    - apply Forall_app; split; [exact Hpre | repeat constructor; assumption].
    - rewrite Hb. discriminate. }
  unfold at_plus. destruct BOARD_rfd900a eqn:Hboard.
  2:{ msteps. do 2 eexists. split; [reflexivity |]. fields.
      split; [reflexivity |]. split; [repeat constructor | reflexivity]. }
  specialize (fun s1 e pre => Hfin s1 e pre eq_refl).
  msteps.
  destruct (at_parse_number_returns Hpf (set_idx 4 s)) as (v & j & Hv & Hj & _);
    [exact Hlen | exact Hlast | simpl; lia |].
  rewrite (bind_ok _ _ _ _ _ Hv). fields.
  destruct (load_in_range 3 s Hlen ltac:(lia)) as [c3 H3].
  destruct (load_in_range 4 s Hlen ltac:(lia)) as [c4 H4].
  rewrite (bind_load 3 c3) by exact H3.
  destruct (c3 =? 80).
  { rewrite (bind_load 4 c4) by exact H4.
    destruct (negb (c4 =? 61)).
    { msteps. apply (Hfin _ _ []); [symmetry; apply app_nil_r | constructor | exact I]. }
    msteps.
    destruct (at_parse_number_returns Hpf (set_idx 5 s)) as (v2 & j2 & Hv2 & _);
      [exact Hlen | exact Hlast | simpl; lia |].
    rewrite (bind_ok _ _ _ _ _ Hv2). msteps.
    eapply Hfin; [fields; rewrite <- app_assoc; reflexivity | | exact I].
    constructor; [apply land_255_range |]. constructor; [exact I | constructor]. }
  destruct (c3 =? 67).
  { msteps.
    destruct (load_in_range j s Hlen ltac:(lia)) as [c Hc].
    rewrite (bind_load j c) by exact Hc.
    destruct (c =? 63).
    { msteps. eapply Hfin; [fields; reflexivity | | exact I].
      constructor; [apply u8_range | constructor]. }
    destruct (Z.eqb_spec c 61) as [-> | _].
    2:{ msteps. apply (Hfin _ _ []); [symmetry; apply app_nil_r | constructor | exact I]. }
    msteps.
    pose proof (not_last_cell j 61 s Hlast Hc ltac:(discriminate) ltac:(lia)).
    rewrite (u8_small (j + 1)) by lia.
    destruct (at_parse_number_returns Hpf (set_idx (j + 1) s)) as (v2 & j2 & Hv2 & _);
      [exact Hlen | exact Hlast | simpl; lia |].
    rewrite (bind_ok _ _ _ _ _ Hv2). msteps.
    destruct (negb _); msteps;
      (eapply Hfin; [fields; reflexivity | | exact I];
       constructor; [split; [apply u8_range | apply land_255_range] | constructor]). }
  destruct (c3 =? 76).
  2:{ msteps. apply (Hfin _ _ []); [symmetry; apply app_nil_r | constructor | exact I]. }
  msteps. destruct (negb _); msteps;
    (eapply Hfin; [fields; reflexivity | | exact I];
     constructor; [exact I | constructor]).
Qed.

(** ** Command mode, in and out *)

Lemma escape_sequence_run s (n1 g1 g2 n2 : nat) :
  at_plus_state s = ATP_WAIT_FOR_IDLE ->
  1 <= at_plus_counter s <= ATP_COUNT_1S ->
  (3 <= length (at_cmd s))%nat ->
  (100 <= n1)%nat -> (100 <= n2)%nat ->
  run (ticks n1 ++ Byte c_plus :: ticks g1 ++ Byte c_plus ::
       ticks g2 ++ Byte c_plus :: ticks n2) s
  = Ok tt (enter_command_mode s).
Proof.
  intros Hst Hc Hlen Hn1 Hn2.
  rewrite run_app, (bind_ok _ _ _ _ _ (run_ticks_idle n1 s Hst ltac:(lia) ltac:(lia))).
  set (s1 := set_at_plus_state 1 (set_at_plus_counter 0 s)).
  rewrite (run_cons (Byte c_plus) _ s1 _ eq_refl).
  set (s2 := at_plus_detector c_plus s1).
  rewrite run_app, (bind_ok _ _ _ _ _ (run_ticks_stopped g1 s2 ltac:(simpl; lia))).
  rewrite (run_cons (Byte c_plus) _ s2 _ eq_refl).
  set (s3 := at_plus_detector c_plus s2).
  rewrite run_app, (bind_ok _ _ _ _ _ (run_ticks_stopped g2 s3 ltac:(simpl; lia))).
  rewrite (run_cons (Byte c_plus) _ s3 _ eq_refl).
  set (s4 := at_plus_detector c_plus s3).
  rewrite (run_ticks_armed n2 s4) by (simpl; auto; lia).
  f_equal. unfold enter_command_mode. destruct WATCH_DOG_ENABLE; reflexivity.
Qed.

Lemma enter_command_mode_out s :
  out (enter_command_mode s) =
    out s ++ (if WATCH_DOG_ENABLE
              then [Called (sfr_PCA0MD_watchdog false)] else []).
Proof.
  unfold enter_command_mode. destruct WATCH_DOG_ENABLE; fields;
    [reflexivity | rewrite app_nil_r; reflexivity].
Qed.

Lemma at_command_after_entry s :
  (3 <= length (at_cmd s))%nat ->
  exists s',
    at_command (enter_command_mode s) = Ok tt s' /\
    at_mode_active s' = true /\
    at_cmd_len s' = 0 /\ at_cmd_ready s' = false /\
    out s' = out (enter_command_mode s) ++
             [ReplyOK (nodeId (env (enter_command_mode s)))].
Proof.
  intros Hlen.
  destruct (enter_command_mode_fields s) as (Hm & _ & _ & Hl & Hr & Hb).
  assert (Hcells : at_cmd (enter_command_mode s) !! 0%nat = Some c_A /\
                   at_cmd (enter_command_mode s) !! 1%nat = Some c_T /\
                   at_cmd (enter_command_mode s) !! 2%nat = Some c_NUL).
  { rewrite Hb. destruct (at_cmd s) as [| a [| b [| c l]]]; simpl in Hlen;
      try lia. auto. }
  destruct Hcells as (H0 & H1 & H2).
  rewrite (at_command_at_line 0 (enter_command_mode s) Hr ltac:(lia) H0 H1 H2);
    try discriminate.
  eexists. split; [reflexivity |]. fields. auto.
Qed.

(** The escape sequence is acknowledged: from an idle detector whose
    counter is running, an idle second, three pluses and another idle
    second, followed by one pass of the dispatcher, leave the modem in
    command mode with the buffer unlocked, and the host has been sent
    exactly one OK (after the watchdog has been switched off, where there
    is one). *)
Theorem escape_sequence_is_acknowledged s (n1 g1 g2 n2 : nat) :
  at_plus_state s = ATP_WAIT_FOR_IDLE ->
  1 <= at_plus_counter s <= ATP_COUNT_1S ->
  (3 <= length (at_cmd s))%nat ->
  (100 <= n1)%nat -> (100 <= n2)%nat ->
  exists s' node,
    bind (run (ticks n1 ++ Byte c_plus :: ticks g1 ++ Byte c_plus ::
               ticks g2 ++ Byte c_plus :: ticks n2))
      (fun _ => at_command) s = Ok tt s' /\
    at_mode_active s' = true /\
    at_cmd_len s' = 0 /\ at_cmd_ready s' = false /\
    out s' = out s ++
             (if WATCH_DOG_ENABLE
              then [Called (sfr_PCA0MD_watchdog false)] else []) ++
             [ReplyOK node].
Proof.
  intros Hst Hc Hlen Hn1 Hn2.
  rewrite (bind_ok _ _ _ _ _ (escape_sequence_run s n1 g1 g2 n2 Hst Hc Hlen Hn1 Hn2)).
  destruct (at_command_after_entry s Hlen) as (s' & Hr & Hm & Hl & Hrd & Ho).
  exists s', (nodeId (env (enter_command_mode s))).
  split; [exact Hr |]. repeat (split; [assumption |]).
  rewrite Ho, enter_command_mode_out, <- app_assoc. reflexivity.
Qed.

Lemma at_command_ato s :
  at_cmd_ready s = true ->
  2 <= at_cmd_len s ->
  at_cmd s !! 0%nat = Some c_A ->
  at_cmd s !! 1%nat = Some c_T ->
  at_cmd s !! 2%nat = Some c_O ->
  at_command s =
    Ok tt (set_at_cmd_ready false (set_at_cmd_len 0 (go_online s))).
Proof.
  intros Hready Hn H0 H1 H2.
  unfold at_command. msteps. rewrite Hready.
  rewrite (bind_ok _ _ _ _ _ (has_prefix_eq c_R c_T c_A c_T s Hn H0 H1)).
  change ((c_A =? c_R) && (c_T =? c_T)) with false. cbv iota.
  rewrite (bind_ok _ _ _ _ _ (has_prefix_eq c_A c_T c_A c_T s Hn H0 H1)).
  change ((c_A =? c_A) && (c_T =? c_T)) with true. cbv iota.
  rewrite bind_bind, (bind_load 2 c_O) by exact H2. simpl.
  unfold go_online. destruct WATCH_DOG_ENABLE; msteps; reflexivity.
Qed.

(** ATO and back: the line ATO takes the modem out of command mode
    without any reply and restarts the idle second, so that, the detector
    being idle, the escape sequence brings it back into command mode,
    where the dispatcher answers OK. *)
Theorem online_and_back s (n1 g1 g2 n2 : nat) :
  at_cmd_ready s = true ->
  2 <= at_cmd_len s ->
  at_cmd s !! 0%nat = Some c_A ->
  at_cmd s !! 1%nat = Some c_T ->
  at_cmd s !! 2%nat = Some c_O ->
  at_plus_state s = ATP_WAIT_FOR_IDLE ->
  (100 <= n1)%nat -> (100 <= n2)%nat ->
  exists s1 s2 node,
    at_command s = Ok tt s1 /\
    at_mode_active s1 = false /\
    at_plus_counter s1 = ATP_COUNT_1S /\
    out s1 = out s ++ (if WATCH_DOG_ENABLE
                       then [Called (sfr_PCA0MD_watchdog true)] else []) /\
    bind (run (ticks n1 ++ Byte c_plus :: ticks g1 ++ Byte c_plus ::
               ticks g2 ++ Byte c_plus :: ticks n2))
      (fun _ => at_command) s1 = Ok tt s2 /\
    at_mode_active s2 = true /\
    out s2 = out s1 ++
             (if WATCH_DOG_ENABLE
              then [Called (sfr_PCA0MD_watchdog false)] else []) ++
             [ReplyOK node].
Proof.
  intros Hready Hn H0 H1 H2 Hst Hn1 Hn2.
  assert (Hlen : (3 <= length (at_cmd s))%nat).
  { apply lookup_lt_Some in H2. lia. }
  set (s1 := set_at_cmd_ready false (set_at_cmd_len 0 (go_online s))).
  assert (Hs1 : at_mode_active s1 = false /\ at_plus_counter s1 = 100 /\
                at_plus_state s1 = 0 /\ at_cmd s1 = at_cmd s /\
                out s1 = out s ++ (if WATCH_DOG_ENABLE
                                   then [Called (sfr_PCA0MD_watchdog true)]
                                   else [])).
  { unfold s1, go_online. destruct WATCH_DOG_ENABLE; fields;
      rewrite ?app_nil_r; auto. }
  destruct Hs1 as (Hm1 & Hc1 & Hst1 & Hb1 & Ho1).
  assert (Hrun := escape_sequence_run s1 n1 g1 g2 n2 Hst1 ltac:(lia)
                    ltac:(rewrite Hb1; exact Hlen) Hn1 Hn2).
  destruct (at_command_after_entry s1 ltac:(rewrite Hb1; exact Hlen))
    as (s2 & Hr & Hm & _ & _ & Ho).
  exists s1, s2, (nodeId (env (enter_command_mode s1))).
  split; [apply at_command_ato; assumption |].
  do 3 (split; [assumption |]).
  split; [rewrite (bind_ok _ _ _ _ _ Hrun); exact Hr |].
  split; [exact Hm |].
  rewrite Ho, enter_command_mode_out, <- app_assoc. reflexivity.
Qed.

(** ** The guard time *)

Lemma detector_same_line c s : same_line s (at_plus_detector c s).
Proof.
  unfold same_line, at_plus_detector.
  destruct (negb (c =? 43)); fields;
    repeat match goal with
           | |- context [if ?b then _ else _] => destruct b
           end; fields; auto.
Qed.

Lemma detector_armed_counter c s :
  at_plus_state (at_plus_detector c s) = ATP_WAIT_FOR_ENABLE ->
  at_plus_counter (at_plus_detector c s) = ATP_COUNT_1S.
Proof.
  destruct (Z.eq_dec c c_plus) as [-> | Hc].
  - unfold at_plus_detector. simpl.
    remember (at_plus_state s) as st eqn:Est.
    destruct (Z.eq_dec st 1) as [-> | N1]; [simpl; fields; discriminate |].
    destruct (Z.eq_dec st 2) as [-> | N2]; [simpl; fields; discriminate |].
    destruct (Z.eq_dec st 3) as [-> | N3]; [simpl; fields; reflexivity |].
    destruct (Z.eq_dec st 0) as [-> | N0]; [simpl; fields; reflexivity |].
    destruct (Z.eq_dec st 4) as [-> | N4]; [simpl; fields; reflexivity |].
    rewrite !Zeqb_ne by assumption. simpl. reflexivity.
  - rewrite (detector_not_plus _ _ Hc). reflexivity.
Qed.

Lemma timer_unarmed_line s :
  at_plus_state s <> ATP_WAIT_FOR_ENABLE ->
  exists s',
    at_timer s = Ok tt s' /\ same_line s s' /\
    at_plus_state s' <> ATP_WAIT_FOR_ENABLE.
Proof.
  intros Hst. unfold at_timer, same_line. msteps.
  destruct (0 <? at_plus_counter s); [| eexists; split; [reflexivity | auto 10]].
  msteps.
  destruct (u8 (at_plus_counter s - 1) =? 0);
    [| eexists; split; [reflexivity | fields; auto 10]].
  msteps.
  destruct (Z.eqb_spec (at_plus_state s) 0) as [E0 | N0].
  - eexists; split; [reflexivity |]. fields. split; [auto 10 | discriminate].
  - rewrite (Zeqb_ne _ _ Hst). eexists; split; [reflexivity |]. fields. auto 10.
Qed.

Lemma same_line_trans s s1 s2 : same_line s s1 -> same_line s1 s2 -> same_line s s2.
Proof.
  unfold same_line. intros (A1 & A2 & A3 & A4 & A5) (B1 & B2 & B3 & B4 & B5).
  repeat split; congruence.
Qed.

Lemma ticks_unarmed_line (k : nat) s0 s :
  same_line s0 s ->
  at_plus_state s <> ATP_WAIT_FOR_ENABLE ->
  always (same_line s0) (ticks k) s.
Proof.
  revert s. induction k as [| k IH]; intros s Hs Hst.
  - split; [exact Hs | exact I].
  - split; [exact Hs |].
    destruct (timer_unarmed_line s Hst) as (s' & Ht & Hl & Hst').
    exists s'. split; [exact Ht |].
    apply IH; [eapply same_line_trans; eauto | exact Hst'].
Qed.

Lemma ticks_armed_line (k : nat) s0 s :
  same_line s0 s ->
  Z.of_nat k < at_plus_counter s <= 256 ->
  always (same_line s0) (ticks k) s.
Proof.
  revert s. induction k as [| k IH]; intros s Hs Hc.
  - split; [exact Hs | exact I].
  - split; [exact Hs |].
    exists (set_at_plus_counter (at_plus_counter s - 1) s).
    split; [apply timer_counts; lia |].
    apply IH; [| fields; lia].
    unfold same_line in *. fields. exact Hs.
Qed.

(** The guard time: for less than a second (100 ticks) after any byte has
    passed the detector, in whatever state, the timer leaves
    [at_mode_active], the command buffer, its length and its ready flag
    alone and writes nothing, so that command mode is never entered sooner
    than a second after the last byte. *)
Theorem no_entry_within_a_second_of_a_byte c s (k : nat) :
  (k < 100)%nat ->
  always (same_line s) (ticks k) (at_plus_detector c s).
Proof.
  intros Hk.
  destruct (Z.eq_dec (at_plus_state (at_plus_detector c s)) 4) as [E | N].
  - apply ticks_armed_line; [apply detector_same_line |].
    rewrite (detector_armed_counter c s E). lia.
  - apply ticks_unarmed_line; [apply detector_same_line | exact N].
Qed.


(** ** Writing a register and reading it back *)

(** After an ATS write that was answered OK, a read of the same register
    prints the value that was written, whenever the parameter store gives
    back what it accepted. *)
Theorem ats_write_then_read s1 s1' s2 pre n :
  platform_ok ->
  store_keeps ->
  buffer_inv s1 ->
  buffer_inv s2 ->
  at_s s1 = Ok tt s1' ->
  out s1' = out s1 ++ pre ++ [ReplyOK n] ->
  env s2 = env s1' ->
  at_s_index s2 = at_s_index s1 ->
  at_cmd s2 !! Z.to_nat (at_s_cursor s2) = Some c_qm ->
  exists s2' node,
    at_s s2 = Ok tt s2' /\
    out s2' = out s2 ++ [Called (param_get_call (at_s_index s1));
                         PrintLU node (at_s_value s1)].
Proof.
  intros Hpf Hst Hi1 Hi2 Hr1 Ho1 He Hidx Hq.
  destruct (at_s_run s1 Hpf Hi1) as (t1 & Hr & Ho & Hw).
  rewrite Hr1 in Hr. injection Hr as <-.
  rewrite Ho in Ho1. apply app_inv_head in Ho1.
  apply (f_equal (fun l => List.last l (ReplyERROR 0))) in Ho1.
  rewrite List.last_last in Ho1.
  destruct (at_s_run s2 Hpf Hi2) as (s2' & Hr2 & Ho2 & _).
  exists s2'.
  revert Ho1 Hw Ho2. unfold at_s_reply. rewrite Hidx, Hq, Z.eqb_refl.
  destruct (PARAM_MAX <=? at_s_index s1); [discriminate |].
  destruct (at_cmd s1 !! Z.to_nat (at_s_cursor s1)) as [c |]; [| discriminate].
  destruct (c =? 63); [discriminate |].
  destruct ((c =? 61) && (0 <? at_s_index s1)); [| discriminate].
  destruct (Z.eqb_spec
              (answer (param_set_call (at_s_index s1) (at_s_value s1)) s1) 0)
    as [| Hacc]; [discriminate |].
  intros _ Hw Ho2. eexists. split; [exact Hr2 |].
  assert (Hval : u32 (answer (param_get_call (at_s_index s1)) s2) =
                 at_s_value s1).
  { unfold answer in *. rewrite He, Hw. simpl.
    rewrite (Hst _ _ _ Hacc).
    unfold at_s_value, u32. apply Z.mod_mod. discriminate. }
  rewrite Ho2, Hval. reflexivity.
Qed.

(** ** Numbers of at most nine digits *)

Lemma decimal_bound (ds : list Z) :
  forall a, 0 <= a ->
  Forall (fun d => isdigit d = true) ds ->
  0 <= fold_left (fun acc d => acc * 10 + (d - c_0)) ds a
    < (a + 1) * 10 ^ Z.of_nat (length ds).
Proof.
  induction ds as [| d ds IH]; intros a Ha Hd.
  - simpl. lia.
  - inversion Hd as [| ? ? Hx Hd']; subst. clear Hd. rename Hd' into Hd.
    unfold isdigit in Hx. apply andb_true_iff in Hx as [Hlo Hhi].
    apply Z.leb_le in Hlo, Hhi.
    specialize (IH (a * 10 + (d - 48)) ltac:(lia) Hd).
    cbn [fold_left length]. rewrite Nat2Z.inj_succ, Z.pow_succ_r by lia.
    assert (Hp : 0 < 10 ^ Z.of_nat (length ds))
      by (apply Z.pow_pos_nonneg; lia).
    nia.
Qed.

(** A run of at most nine digits is read as the number it writes, with no
    wrap-around: the value is below ten to the number of digits. *)
Theorem at_parse_number_exact s :
  0 <= idx s ->
  (length (at_cmd s) <= 256)%nat ->
  (Z.to_nat (idx s) + length (digit_run s) < length (at_cmd s))%nat ->
  (length (digit_run s) <= 9)%nat ->
  at_parse_number s =
    Ok (decimal (digit_run s))
       (set_idx (idx s + Z.of_nat (length (digit_run s))) s) /\
  0 <= decimal (digit_run s) < 10 ^ Z.of_nat (length (digit_run s)).
Proof.
  intros Hi Hbuf Hend Hnine.
  pose proof (decimal_bound (digit_run s) 0 ltac:(lia)
                (digits_prefix_Forall _)) as Hb.
  fold (decimal (digit_run s)) in Hb. rewrite Z.mul_1_l in Hb.
  split; [| exact Hb].
  unfold at_parse_number. rewrite at_parse_loop_eq by lia.
  rewrite accumulate_decimal, Z.mod_small; [reflexivity |].
  assert (10 ^ Z.of_nat (length (digit_run s)) <= 10 ^ 9)
    by (apply Z.pow_le_mono_r; lia).
  change (10 ^ 9) with 1000000000 in *. change (2 ^ 32) with 4294967296. lia.
Qed.

End Properties.

(** ** The properties at work on the sample platform *)

Lemma at_input_overflow_witness :
  exists s',
    at_input (PF := sample) c_A (with_line (replicate 16 c_A)) = Ok tt s' /\
    at_mode_active s' = false /\
    at_cmd_len s' = 0 /\
    out s' = out (with_line (replicate 16 c_A)) /\
    at_cmd s' = at_cmd (with_line (replicate 16 c_A)).
Proof.
  apply (at_input_overflow_leaves_command_mode (PF := sample));
    [reflexivity | discriminate | discriminate | discriminate].
Defined.

Lemma detector_armed_witness :
  at_plus_counter
    (at_plus_detector c_plus
       (set_at_plus_state ATP_WAIT_FOR_ENABLE power_on)) = ATP_COUNT_1S.
Proof.
  destruct (detector_armed_restarts_countdown (PF := sample) c_plus
              (set_at_plus_state ATP_WAIT_FOR_ENABLE power_on) power_on
              eq_refl) as [[Hcount _] _].
  exact Hcount.
Defined.

(** C1 does not hold from any starting state: where the timer left the
    detector when command mode was entered (idle, counter stopped), the
    first ['+'] only restarts the counter, and the sequence ends in the
    state that has seen the idle second, with [at_mode_active] unchanged. *)
Lemma escape_sequence_from_stopped_counter :
  ~ (forall s : @at_state sample,
       exists s',
         run (ticks 100 ++ Byte c_plus :: Byte c_plus :: Byte c_plus ::
              ticks 100) s = Ok tt s' /\
         at_mode_active s' = true /\
         at_plus_state s' = ATP_WAIT_FOR_IDLE).
Proof.
  intros Hall.
  destruct (Hall (set_at_plus_counter 0 power_on)) as (s' & Hrun & Hmode & _).
  vm_compute in Hrun. injection Hrun as <-. discriminate Hmode.
Qed.

Lemma escape_sequence_witness :
  (exists s',
     run (PF := sample)
       (ticks 100 ++ Byte c_plus :: ticks 0 ++ Byte c_plus ::
        ticks 0 ++ Byte c_plus :: ticks 100) power_on = Ok tt s' /\
     at_mode_active s' = true /\
     at_plus_state s' = ATP_WAIT_FOR_IDLE /\
     at_cmd_ready s' = true /\
     at_cmd_len s' = 2 /\
     take 3 (at_cmd s') = [c_A; c_T; c_NUL]) /\
  always (PF := sample)
    (fun s' => at_plus_state s' <> ATP_WAIT_FOR_ENABLE /\
               at_mode_active s' = at_mode_active power_on)
    (ticks 0 ++ Byte c_plus :: ticks 0 ++ Byte c_plus ::
     ticks 0 ++ Byte c_plus :: ticks 100)
    (at_plus_detector c_A power_on).
Proof.
  apply (escape_sequence_needs_leading_idle_second (PF := sample)
           power_on power_on c_A 100 0 0 100 0 0 0 100);
    first [reflexivity | discriminate | simpl; lia].
Defined.

Lemma at_parse_number_witness :
  at_parse_number (PF := sample)
    (set_idx 3 (with_line [c_A; c_T; c_S; c_1; c_2; c_eq; c_7])) =
  Ok 12 (set_idx 5 (with_line [c_A; c_T; c_S; c_1; c_2; c_eq; c_7])).
Proof.
  destruct (at_parse_number_reads_decimal (PF := sample)
              (set_idx 3 (with_line [c_A; c_T; c_S; c_1; c_2; c_eq; c_7])))
    as [Hval _]; [simpl; lia | simpl; lia | simpl; lia |].
  exact Hval.
Defined.

Lemma sample_platform_ok : platform_ok (PF := sample).
Proof. unfold platform_ok. simpl. lia. Qed.

Lemma with_line_buffer_inv (line : list Z) :
  (length line <= 16)%nat -> buffer_inv (with_line line).
Proof.
  intros Hl. unfold buffer_inv, with_line. simpl.
  rewrite length_app, length_replicate.
  split; [lia |]. split; [| lia].
  rewrite lookup_app_r by lia.
  apply lookup_replicate_2. lia.
Qed.

Lemma at_cmd_len_bounded_witness :
  (forall c, exists s',
     at_input c (with_line [c_A; c_T]) = Ok tt s' /\ buffer_inv s') /\
  (exists s', at_timer (with_line [c_A; c_T]) = Ok tt s' /\ buffer_inv s') /\
  match at_command (with_line [c_A; c_T]) with
  | Ok _ s' => buffer_inv s'
  | Halt _ _ => True
  | _ => False
  end.
Proof.
  apply (at_cmd_len_never_exceeds_maximum (PF := sample)).
  - exact sample_platform_ok.
  - apply with_line_buffer_inv. simpl. lia.
Defined.

Lemma at_command_unlocks_witness :
  match at_command (with_line [c_A; c_T; c_I]) with
  | Ok _ s' => at_cmd_len s' = 0 /\ at_cmd_ready s' = false
  | Halt h _ =>
      has_prefix c_A c_T (with_line [c_A; c_T; c_I])
        = Ok true (with_line [c_A; c_T; c_I]) /\
      (h = SoftwareReset /\
       at_cmd (with_line [c_A; c_T; c_I]) !! 2%nat = Some c_Z \/
       h = ForcedFault /\
       at_cmd (with_line [c_A; c_T; c_I]) !! 2%nat = Some c_amp /\
       at_cmd (with_line [c_A; c_T; c_I]) !! 3%nat = Some c_U)
  | _ => False
  end /\
  (has_prefix c_R c_T (with_line [c_A; c_T; c_I])
     = Ok false (with_line [c_A; c_T; c_I]) ->
   has_prefix c_A c_T (with_line [c_A; c_T; c_I])
     = Ok false (with_line [c_A; c_T; c_I]) ->
   exists s',
     at_command (with_line [c_A; c_T; c_I]) = Ok tt s' /\
     out s' = out (with_line [c_A; c_T; c_I]) /\
     at_cmd_len s' = 0 /\ at_cmd_ready s' = false).
Proof.
  apply (at_command_always_unlocks (PF := sample)).
  - exact sample_platform_ok.
  - apply with_line_buffer_inv. simpl. lia.
  - reflexivity.
Defined.

Lemma plus_states_witness :
  (1 <= at_plus_state power_on <= 3 ->
   at_plus_counter power_on = 0 /\ at_timer power_on = Ok tt power_on) /\
  (at_plus_counter power_on <> 0 ->
   at_plus_state power_on = ATP_WAIT_FOR_IDLE \/
   at_plus_state power_on = ATP_WAIT_FOR_ENABLE).
Proof.
  apply (plus_states_have_stopped_counter (PF := sample)).
  apply reach_init; reflexivity.
Defined.

Lemma at_p_pin_witness :
  exists s' new,
    at_p (with_line [c_A; c_T; c_P; c_O; c_eq; c_9]) = Ok tt s' /\
    out s' = out (with_line [c_A; c_T; c_P; c_O; c_eq; c_9]) ++ new /\
    Forall (pin_below 10) new /\
    Forall (on_pin 9) new /\
    calls_of new = [pins_user_set_io_call 9 (PIN_OUTPUT (Platform := sample))].
Proof.
  destruct (at_p_pin_is_one_digit (PF := sample) c_O c_eq c_9 c_NUL
              (with_line [c_A; c_T; c_P; c_O; c_eq; c_9])
              eq_refl eq_refl eq_refl eq_refl ltac:(discriminate))
    as (s' & new & Hr & Ho & Hb & Hp & _ & Hd).
  destruct (Hd eq_refl eq_refl) as (_ & HO & _).
  exists s', new.
  split; [exact Hr |]. split; [exact Ho |]. split; [exact Hb |].
  split; [exact Hp |]. exact (HO eq_refl).
Defined.

(** C8 does not hold as stated: with six user pins, [ATPO=9] reaches
    [pins_user_set_io] with pin 9. *)
Lemma at_p_pin_beyond_PIN_MAX :
  ~ Forall (pin_below (PIN_MAX (Platform := sample)))
      (output_of (at_p (with_line [c_A; c_T; c_P; c_O; c_eq; c_9]))).
Proof.
  intros Hall.
  assert (Hout : output_of (at_p (with_line [c_A; c_T; c_P; c_O; c_eq; c_9]))
                 = [Called (pins_user_set_io_call 9 true); ReplyOK 1])
    by (vm_compute; reflexivity).
  rewrite Hout in Hall. inversion Hall as [| e l Hpin _]. simpl in Hpin. lia.
Qed.

(** C4: the register index is compared with [PARAM_MAX] only after it has
    been narrowed to eight bits.  With 19 parameters, [ATS256?] is answered
    with the value of register 0 instead of ERROR, and [ATS257=5] writes
    register 1 and is answered OK. *)
Theorem at_s_index_is_narrowed_before_check :
  output_of (at_command (with_line [c_A; c_T; c_S; c_2; c_5; c_6; c_qm]))
    = [Called (param_get_call 0); PrintLU 1 0] /\
  output_of (at_command (with_line [c_A; c_T; c_S; c_2; c_5; c_7; c_eq; c_5]))
    = [Called (param_set_call 1 5); ReplyOK 1].
Proof. split; vm_compute; reflexivity. Qed.

(** C7: the RT path looks for the comma from cell 3 on even when the line
    ends before it.  After the line [ATS,9] the line [RT] finds the comma of
    the line before in cell 3 and is forwarded to node 9, not to the
    broadcast address. *)
Theorem rt_line_reads_stale_comma :
  output_of
    (bind (type_in [c_A; c_T; c_S; c_comma; c_9; c_CR]) (fun _ =>
     bind at_command (fun _ =>
     bind (type_in [c_R; c_T; c_CR]) (fun _ =>
     at_command))) in_command_mode)
  = [Putchar c_A; Putchar c_T; Putchar c_S; Putchar c_comma; Putchar c_9;
     Putchar c_NL; ReplyERROR 1;
     Putchar c_R; Putchar c_T; Putchar c_NL;
     Called (tdm_remote_at_call 9
               ([c_R; c_T; c_NUL; c_NUL; c_9] ++ replicate 12 c_NUL))].
Proof. vm_compute. reflexivity. Qed.

Lemma rt_line_forwarding_witness :
  exists s',
    at_command (with_line [c_R; c_T; c_I; c_comma; c_5]) = Ok tt s' /\
    at_cmd_len s' = 0 /\ at_cmd_ready s' = false /\
    ((exists j,
        3 <= j < at_cmd_len (with_line [c_R; c_T; c_I; c_comma; c_5]) /\
        at_cmd (with_line [c_R; c_T; c_I; c_comma; c_5]) !! Z.to_nat j
          = Some c_comma /\
        (forall i, 3 <= i < j ->
           at_cmd (with_line [c_R; c_T; c_I; c_comma; c_5]) !! Z.to_nat i
             <> Some c_comma) /\
        at_cmd s' = <[Z.to_nat j := c_NUL]>
                      (at_cmd (with_line [c_R; c_T; c_I; c_comma; c_5])) /\
        out s' = out (with_line [c_R; c_T; c_I; c_comma; c_5]) ++
                 [Called (tdm_remote_at_call
                            (rt_destination j
                               (with_line [c_R; c_T; c_I; c_comma; c_5]))
                            (<[Z.to_nat j := c_NUL]>
                               (at_cmd (with_line [c_R; c_T; c_I; c_comma; c_5]))))]) \/
     ((forall i,
         3 <= i < at_cmd_len (with_line [c_R; c_T; c_I; c_comma; c_5]) ->
         at_cmd (with_line [c_R; c_T; c_I; c_comma; c_5]) !! Z.to_nat i
           <> Some c_comma) /\
      at_cmd s' = at_cmd (with_line [c_R; c_T; c_I; c_comma; c_5]) /\
      out s' = out (with_line [c_R; c_T; c_I; c_comma; c_5]) ++
               [Called (tdm_remote_at_call 65535
                          (at_cmd (with_line [c_R; c_T; c_I; c_comma; c_5])))])).
Proof.
  apply (rt_line_forwarding (PF := sample)).
  - exact sample_platform_ok.
  - apply with_line_buffer_inv. simpl. lia.
  - reflexivity.
  - reflexivity.
  - simpl. lia.
  - reflexivity.
Defined.

Lemma at_s_replies_witness :
  exists s',
    at_s (with_line [c_A; c_T; c_S; c_1; c_eq; c_5]) = Ok tt s' /\
    out s' = out (with_line [c_A; c_T; c_S; c_1; c_eq; c_5]) ++
             at_s_reply (with_line [c_A; c_T; c_S; c_1; c_eq; c_5]).
Proof.
  apply (at_s_replies (PF := sample)).
  - exact sample_platform_ok.
  - apply with_line_buffer_inv. simpl. lia.
Defined.

Lemma at_line_acknowledged_witness :
  exists s',
    at_command (with_line [c_A; c_T]) = Ok tt s' /\
    at_cmd_len s' = 0 /\ at_cmd_ready s' = false /\
    (0 = c_NUL ->
     out s' = out (with_line [c_A; c_T]) ++
              [ReplyOK (nodeId (env (with_line [c_A; c_T])))]) /\
    (0 <> c_NUL ->
     out s' = out (with_line [c_A; c_T]) ++
              [ReplyERROR (nodeId (env (with_line [c_A; c_T])))]).
Proof.
  apply (at_line_is_acknowledged (PF := sample) 0 (with_line [c_A; c_T]));
    first [reflexivity | discriminate | simpl; lia].
Defined.

Lemma power_on_buffer_inv : buffer_inv in_command_mode.
Proof. unfold buffer_inv. simpl. repeat split; lia. Qed.

Lemma typed_line_witness :
  exists s',
    type_in ([97; 116] ++ [c_CR]) in_command_mode = Ok tt s' /\
    at_cmd_ready s' = true /\
    at_cmd_len s' = 2 /\
    take (Z.to_nat (at_cmd_len s')) (at_cmd s') = [c_A; c_T].
Proof.
  destruct (typed_line_is_submitted (PF := sample) [97; 116] in_command_mode
              sample_platform_ok power_on_buffer_inv)
    as (s' & Hrun & Hready & Hlen & Htake & _).
  - repeat constructor.
  - simpl. lia.
  - exists s'. auto.
Defined.

Lemma backspace_witness :
  exists s',
    type_in [97; c_BS] in_command_mode = Ok tt s' /\
    at_cmd_len s' = 0.
Proof.
  destruct (backspace_undoes_character (PF := sample) 97 c_BS in_command_mode
              sample_platform_ok power_on_buffer_inv)
    as [(s' & Hrun & Hlen & _) _].
  - left. reflexivity.
  - reflexivity.
  - simpl. lia.
  - exists s'. auto.
Defined.

Lemma skips_unprintable_witness :
  type_in [c_A; 7; c_T] in_command_mode = type_in [c_A; c_T] in_command_mode.
Proof.
  apply (type_in_skips_unprintable (PF := sample) [c_A; 7; c_T]).
  - exact sample_platform_ok.
  - exact power_on_buffer_inv.
  - repeat constructor; discriminate.
  - simpl. lia.
Defined.

Lemma ati5_witness :
  exists s',
    at_i (with_line [c_A; c_T; c_I; c_5]) = Ok tt s' /\
    out s' = out (with_line [c_A; c_T; c_I; c_5]) ++
             map (fun i => Called (param_print_call i)) (seqZ 0 19).
Proof.
  apply (ati5_prints_every_parameter (PF := sample)).
  - simpl. lia.
  - reflexivity.
Defined.

Lemma atpp_witness :
  exists s' new,
    at_p (with_line [c_A; c_T; c_P; c_P]) = Ok tt s' /\
    out s' = out (with_line [c_A; c_T; c_P; c_P]) ++ new /\
    calls_of new =
      flat_map (fun p => [pins_user_get_io_call p; pins_user_get_value_call p])
        (seqZ 0 6) /\
    Forall (fun e => is_reply e = false) new.
Proof.
  apply (atpp_reads_every_pin (PF := sample)).
  - simpl. lia.
  - reflexivity.
Defined.

Lemma malformed_pin_witness :
  at_p (with_line [c_A; c_T; c_P; c_O; c_1])
  = Ok tt (set_out (out (with_line [c_A; c_T; c_P; c_O; c_1]) ++
                    [ReplyERROR (nodeId (env (with_line [c_A; c_T; c_P; c_O; c_1])))])
             (with_line [c_A; c_T; c_P; c_O; c_1])).
Proof.
  apply (malformed_pin_command_is_refused (PF := sample) c_O c_1 0 0);
    first [reflexivity | discriminate | (left; discriminate)].
Defined.


Lemma test_mode_witness :
  exists s1,
    at_ampersand (with_line [c_A; c_T; c_amp; c_T; c_eq; c_T; c_D; c_M]) = Ok tt s1 /\
    at_ampersand s1 = Ok tt (with_line [c_A; c_T; c_amp; c_T; c_eq; c_T; c_D; c_M]) /\
    at_testmode s1 = 2.
Proof.
  destruct (test_mode_toggles (PF := sample) lit_eqTDM (replicate 8 0) 2
              (with_line [c_A; c_T; c_amp; c_T; c_eq; c_T; c_D; c_M]))
    as (s1 & Hr1 & Hr2 & Htm & _).
  - right. split; reflexivity.
  - simpl. lia.
  - reflexivity.
  - reflexivity.
  - simpl. lia.
  - lia.
  - exists s1. auto.
Defined.

Lemma at_plus_witness :
  exists s' new,
    at_plus (with_line [c_A; c_T; c_plus; c_P; c_eq; c_9; c_9; c_9]) = Ok tt s' /\
    out s' = out (with_line [c_A; c_T; c_plus; c_P; c_eq; c_9; c_9; c_9]) ++ new /\
    Forall byte_args new.
Proof.
  destruct (at_plus_hands_on_bytes (PF := sample)
              (with_line [c_A; c_T; c_plus; c_P; c_eq; c_9; c_9; c_9])
              sample_platform_ok
              (with_line_buffer_inv
                 [c_A; c_T; c_plus; c_P; c_eq; c_9; c_9; c_9]
                 ltac:(simpl; lia)))
    as (s' & new & Hr & Ho & Hb & _).
  exists s', new. auto.
Defined.

Lemma escape_acknowledged_witness :
  exists s' node,
    bind (run (ticks 100 ++ Byte c_plus :: ticks 0 ++ Byte c_plus ::
               ticks 0 ++ Byte c_plus :: ticks 100))
      (fun _ => at_command) power_on = Ok tt s' /\
    at_mode_active s' = true /\
    at_cmd_len s' = 0 /\ at_cmd_ready s' = false /\
    out s' = out power_on ++ [] ++ [ReplyOK node].
Proof.
  apply (escape_sequence_is_acknowledged (PF := sample) power_on 100 0 0 100);
    first [reflexivity | simpl; lia].
Defined.

Lemma online_and_back_witness :
  exists s1 s2 node,
    at_command (with_line [c_A; c_T; c_O]) = Ok tt s1 /\
    at_mode_active s1 = false /\
    at_plus_counter s1 = ATP_COUNT_1S /\
    out s1 = out (with_line [c_A; c_T; c_O]) ++ [] /\
    bind (run (ticks 100 ++ Byte c_plus :: ticks 0 ++ Byte c_plus ::
               ticks 0 ++ Byte c_plus :: ticks 100))
      (fun _ => at_command) s1 = Ok tt s2 /\
    at_mode_active s2 = true /\
    out s2 = out s1 ++ [] ++ [ReplyOK node].
Proof.
  apply (online_and_back (PF := sample) (with_line [c_A; c_T; c_O]) 100 0 0 100);
    first [reflexivity | simpl; lia].
Defined.

Lemma guard_time_witness :
  always (PF := sample) (same_line power_on) (ticks 99)
    (at_plus_detector c_plus power_on).
Proof.
  apply (no_entry_within_a_second_of_a_byte (PF := sample) c_plus power_on 99).
  lia.
Defined.


Lemma sample_store_keeps : store_keeps (PF := sample).
Proof.
  intros id v w _. simpl. rewrite Z.eqb_refl. reflexivity.
Qed.

Lemma ats_write_then_read_witness :
  exists s2' node,
    at_s (PF := sample)
      (set_env (PF := sample)
         (snd (sample_collab (param_set_call 1 5) (fun _ => 0)))
         (with_line [c_A; c_T; c_S; c_1; c_qm])) = Ok tt s2' /\
    out s2' = [Called (param_get_call 1); PrintLU node 5].
Proof.
  destruct (ats_write_then_read (PF := sample)
              (with_line [c_A; c_T; c_S; c_1; c_eq; c_5])
              (set_env (PF := sample)
                 (snd (sample_collab (param_set_call 1 5) (fun _ => 0)))
                 (set_out [Called (param_set_call 1 5); ReplyOK 1]
                    (set_idx 6 (with_line [c_A; c_T; c_S; c_1; c_eq; c_5]))))
              (set_env (PF := sample)
                 (snd (sample_collab (param_set_call 1 5) (fun _ => 0)))
                 (with_line [c_A; c_T; c_S; c_1; c_qm]))
              [Called (param_set_call 1 5)] 1)
    as (s2' & node & Hr & Ho).
  - exact sample_platform_ok.
  - exact sample_store_keeps.
  - apply (with_line_buffer_inv [c_A; c_T; c_S; c_1; c_eq; c_5]). simpl. lia.
  - apply (with_line_buffer_inv [c_A; c_T; c_S; c_1; c_qm]). simpl. lia.
  - reflexivity.
  - reflexivity.
  - reflexivity.
  - reflexivity.
  - reflexivity.
  - exists s2', node. split; [exact Hr | exact Ho].
Defined.

Lemma at_parse_number_exact_witness :
  at_parse_number (PF := sample)
    (set_idx 3 (with_line [c_A; c_T; c_S; c_1; c_2; c_eq; c_7])) =
  Ok (decimal (digit_run
        (set_idx 3 (with_line [c_A; c_T; c_S; c_1; c_2; c_eq; c_7]))))
     (set_idx 5 (with_line [c_A; c_T; c_S; c_1; c_2; c_eq; c_7])).
Proof.
  destruct (at_parse_number_exact (PF := sample)
              (set_idx 3 (with_line [c_A; c_T; c_S; c_1; c_2; c_eq; c_7])))
    as [Hval _]; [simpl; lia | simpl; lia | simpl; lia | simpl; lia |].
  exact Hval.
Defined.
